(** * Pitstop job controller: status projection, polling, history paging

    A shallow embedding of the client-side controller of the Pitstop page:

    - [src/types/pitstop.ts]: the two projection functions
      [mapBackendToUIStatus] and [getStepFromBackend];
    - [src/api/pitstopClient.ts]: the REST client ([createJob], [getJob],
      [getJobs], [getOutputUrl]);
    - [src/pages/PitstopPage.tsx]: the page component, whose [useState]
      cells, refs and callbacks are modelled as a record and as state
      transformers over it.

    Conventions of the embedding.

    - A JavaScript value that may be [undefined] or [null] is an [option].
      Backend status and stage are kept as the strings they are at run time,
      so that values outside the declared union types can be discussed.
    - Integers (page numbers, offsets, step indices) are [Z]; the progress
      fraction is a rational ([Q]); no property below depends on rounding.
    - The browser is part of the state: the set of live [setInterval]
      timers, the set of live object URLs and the log of issued requests.
    - An [async] callback takes the outcome of each request it awaits as an
      argument.  The callback is then a function from state to state that
      runs the whole body; where what happens around an [await] matters
      ([startPolling], [pollJobStatus], [runJob]) the parts before and
      after it are definitions of their own.
    - The body of a reply is the JSON it holds.  The client casts what
      [response.json()] gives to the declared type without a check, so a
      body carries both the JSON value and what the caller sees it as; the
      error path reads [detail] from the JSON value with the truthiness and
      the string conversion of JavaScript.
    - A state variable read inside a [useCallback] body is the value captured
      by the render that created the callback.  These values are passed as a
      [Closure]; [render s] is the closure of the render that shows [s].
    - Console output and scrolling are not modelled: they touch none of
      the state below. *)

From Stdlib Require Import ZArith QArith List.
From stdpp Require Import base gmap sets strings pretty.
Import ListNotations.

#[local] Set Warnings "-clear-no-such-hyp,-register-all".

Local Open Scope Z_scope.
Local Open Scope string_scope.

(** ** [src/types/pitstop.ts] *)

(** [UIJobStatus]: the UI-level job status. *)
Inductive UIJobStatus : Set :=
| idle | uploading | queued | processing | rendering | complete | failed.

#[global] Instance UIJobStatus_eq_dec : EqDecision UIJobStatus.
Proof. solve_decision. Defined.

(** [!s] for a string: only the empty string is falsy. *)
Definition falsy (s : string) : bool := String.eqb s "".

(** [x === lit] where [x] is a string or [undefined]. *)
Definition strictEq (x : option string) (lit : string) : bool :=
  match x with
  | Some s => String.eqb s lit
  | None => false
  end.

Notation "x === lit" := (strictEq x lit) (at level 65, no associativity).

(** Map backend status + stage to UI status. *)
Definition mapBackendToUIStatus (status stage : option string) : UIJobStatus :=
  match status with
  | None => idle
  | Some st =>
      if falsy st then idle
      else if String.eqb st "QUEUED" then queued
      else if String.eqb st "PROCESSING" then
        if stage === "RENDERING" then rendering else processing
      else if String.eqb st "COMPLETE" then complete
      else if String.eqb st "FAILED" then failed
      else idle
  end.

(** Active step index of the stepper for a backend status and stage. *)
Definition getStepFromBackend (status stage : option string) : Z :=
  match status with
  | None => -1
  | Some st =>
      if falsy st then -1
      else if String.eqb st "QUEUED" then
        if stage === "UPLOAD" then 0 else 1
      else if String.eqb st "PROCESSING" then
        if (stage === "DETECTING") || (stage === "TRACKING") then 2
        else if stage === "RENDERING" then 3
        else 2
      else if String.eqb st "COMPLETE" then 5
      else if String.eqb st "FAILED" then -1
      else -1
  end.

(** The four values of [PitstopJobStatus]. *)
Definition PitstopJobStatus : list string :=
  ["QUEUED"; "PROCESSING"; "COMPLETE"; "FAILED"].

(** The stepper positions the projection can produce. *)
Definition StepperPosition : list Z := [-1; 0; 1; 2; 3; 5].


(** Full job response of [GET /api/pitstop/jobs/{job_id}].  Only the fields
    the controller reads are kept. *)
Module PitstopJob.
Record t : Type := {
  job_id : string;
  status : string;
  stage : option string;
  progress : option Q;
  logs : option (list string)
}.
End PitstopJob.

(** Lightweight job item of the list endpoint. *)
Module PitstopJobListItem.
Record t : Type := {
  job_id : string;
  status : string;
  stage : string;
  progress : Q;
  input_filename : string;
  has_output : bool
}.
End PitstopJobListItem.

(** Response of [GET /api/pitstop/jobs] with pagination metadata. *)
Module PitstopJobListResponse.
Record t : Type := {
  items : list PitstopJobListItem.t;
  total : Z;
  limit : Z;
  offset : Z
}.
End PitstopJobListResponse.

(** Metadata for job creation. *)
Record JobMetadata : Type := {
  series : option string;
  race : option string;
  notes : option string
}.

(** ** The browser's [fetch] *)

(** A [File] picked by the user and the [Blob] of a response body. *)
Record File : Type := { fileName : string; fileSize : N }.
Record Blob : Type := { blob_size : N; blob_type : string }.

(** The requests the client issues.  [POST_jobs] carries the multipart
    fields that were appended to the form. *)
Inductive Request : Type :=
| POST_jobs (file : File) (series race notes : option string)
| GET_job (jobId : string)
| GET_jobs (limit offset : Z)
| GET_output (jobId : string).

(** A JSON number, by the two things the client can observe of it:
    whether it is zero (its truthiness) and the text [String()] gives for
    it. *)
Record JsonNumber : Type := {
  numberIsZero : bool;
  numberText : string
}.

(** The values [JSON.parse] can produce.  The fields of an object are in
    the order of the text; a later field of the same name wins. *)
Inductive JsonValue : Type :=
| JNull
| JBool (b : bool)
| JNumber (n : JsonNumber)
| JString (s : string)
| JArray (items : list JsonValue)
| JObject (fields : list (string * JsonValue)).

(** What [response.json()] finds in a body.  The body is not JSON and the
    promise rejects with the message of the [SyntaxError]; or it is JSON of
    the endpoint's type ([Payload], an object without a [detail] field);
    or it is any other JSON value.  The client returns the parsed value of
    a 2xx reply unchecked, at the endpoint's type: [seenAs] is that value
    as TypeScript types it. *)
Inductive Json (A : Type) : Type :=
| Unparsable (message : string)
| Parsed (value : JsonValue) (seenAs : A)
| Payload (a : A).
Arguments Unparsable {A} message.
Arguments Parsed {A} value seenAs.
Arguments Payload {A} a.

Record Response (B : Type) : Type := {
  code : N;
  statusText : string;
  body : B
}.
Arguments code {B} _.
Arguments statusText {B} _.
Arguments body {B} _.

(** [response.ok]: the status is in the range 200-299. *)
Definition ok {B} (response : Response B) : bool :=
  ((200 <=? code response) && (code response <=? 299))%N.

(** [await fetch(...)]: the promise rejects (network failure) or resolves
    to a response of any status. *)
Inductive Outcome (B : Type) : Type :=
| NetworkFailure (message : string)
| Responded (response : Response B).
Arguments NetworkFailure {B} message.
Arguments Responded {B} response.

(** The settled promise of an [async] client function: a value, or a thrown
    [Error] with its message. *)
Inductive Result (A : Type) : Type :=
| Ok (a : A)
| Err (message : string).
Arguments Ok {A} a.
Arguments Err {A} message.

(** A client function issues one request and settles from its outcome. *)
Record Call (B A : Type) : Type := {
  request : Request;
  settle : Outcome B -> Result A
}.
Arguments request {B A} _.
Arguments settle {B A} _ _.

(** ** [src/api/pitstopClient.ts] *)

(** Base URL of the API when [VITE_PITSTOP_API_BASE] is not set. *)
Definition PITSTOP_API_BASE : string := "http://localhost:8000".

(** [x || fallback] on strings: [undefined] and the empty string are
    falsy. *)
Definition orElse (x : option string) (fallback : string) : string :=
  match x with
  | Some s => if falsy s then fallback else s
  | None => fallback
  end.

(** [`${response.status} ${response.statusText}`] *)
Definition statusLine {B} (response : Response B) : string :=
  pretty (code response) ++ " " ++ statusText response.

(** The value of the own property [name] of an object, as [JSON.parse]
    leaves it: the last field of that name. *)
Definition ownProperty (name : string) (fields : list (string * JsonValue))
  : option JsonValue :=
  fold_left (fun found field => if String.eqb (fst field) name then Some (snd field)
                                else found)
            fields None.

(** [errorData.detail]: reading the property of [null] throws (outer
    [None]); an object gives its own [detail] field or [undefined]; the
    other values have no such property. *)
Definition readDetail (errorData : JsonValue) : option (option JsonValue) :=
  match errorData with
  | JNull => None
  | JObject fields => Some (ownProperty "detail" fields)
  | JBool _ | JNumber _ | JString _ | JArray _ => Some None
  end.

(** [const errorData = await response.json().catch(() => ({}))], then
    [errorData.detail]. *)
Definition errorDataDetail {A} (json : Json A) : option (option JsonValue) :=
  match json with
  | Unparsable _ => readDetail (JObject [])
  | Parsed value _ => readDetail value
  | Payload _ => Some None
  end.

(** Truthiness of a JSON value. *)
Definition truthy (v : JsonValue) : bool :=
  match v with
  | JNull => false
  | JBool b => b
  | JNumber n => negb (numberIsZero n)
  | JString s => negb (falsy s)
  | JArray _ | JObject _ => true
  end.

(** [String(v)], as [new Error(v)] applies it to its message.  An array is
    its elements joined by commas, [null] elements giving nothing; an
    object is "[object Object]", unless it has a field named [toString],
    which is not callable: the conversion then throws ([None]). *)
Fixpoint toString (v : JsonValue) : option string :=
  match v with
  | JNull => Some "null"
  | JBool b => Some (if b then "true" else "false")
  | JNumber n => Some (numberText n)
  | JString s => Some s
  | JArray items =>
      (fix join (items : list JsonValue) : option string :=
         match items with
         | [] => Some ""
         | item :: rest =>
             match (match item with JNull => Some "" | _ => toString item end) with
             | None => None
             | Some text =>
                 match rest with
                 | [] => Some text
                 | _ :: _ =>
                     match join rest with
                     | None => None
                     | Some texts => Some (text ++ "," ++ texts)
                     end
                 end
             end
         end) items
  | JObject fields =>
      match ownProperty "toString" fields with
      | Some _ => None
      | None => Some "[object Object]"
      end
  end.

(** The messages of the two [TypeError]s the error path can raise, in the
    wording of V8. *)
Definition nullPropertyError : string :=
  "Cannot read properties of null (reading 'detail')".
Definition toPrimitiveError : string :=
  "Cannot convert object to primitive value".

(** The message of what
    [throw new Error(errorData.detail || generic)] throws. *)
Definition thrownMessage {A} (json : Json A) (generic : string) : string :=
  match errorDataDetail json with
  | None => nullPropertyError
  | Some None => generic
  | Some (Some detail) =>
      if truthy detail then
        match toString detail with
        | Some message => message
        | None => toPrimitiveError
        end
      else generic
  end.

(** The shape shared by the client functions:
    [if (!response.ok) throw new Error(errorData.detail || `<what>: ...`);
     return response.json();] *)
Definition jsonOrThrow {A} (what : string) (o : Outcome (Json A)) : Result A :=
  match o with
  | NetworkFailure message => Err message
  | Responded response =>
      if negb (ok response) then
        Err (thrownMessage (body response) (what ++ ": " ++ statusLine response))
      else
        match body response with
        | Payload a => Ok a
        | Parsed _ seenAs => Ok seenAs
        | Unparsable message => Err message
        end
  end.

(** [if (meta?.field) formData.append(...)] *)
Definition formField (meta : option JobMetadata) (field : JobMetadata -> option string)
  : option string :=
  match meta with
  | Some m =>
      match field m with
      | Some v => if falsy v then None else Some v
      | None => None
      end
  | None => None
  end.

Definition CreateJobResponse : Type := PitstopJob.t.

Definition createJob (file : File) (meta : option JobMetadata)
  : Call (Json CreateJobResponse) CreateJobResponse :=
  {| request := POST_jobs file (formField meta series) (formField meta race)
                              (formField meta notes);
     settle := jsonOrThrow "Upload failed" |}.

Definition getJob (jobId : string) : Call (Json PitstopJob.t) PitstopJob.t :=
  {| request := GET_job jobId;
     settle := jsonOrThrow "Failed to fetch job" |}.

Definition getJobs (limit offset : Z)
  : Call (Json PitstopJobListResponse.t) PitstopJobListResponse.t :=
  {| request := GET_jobs limit offset;
     settle := jsonOrThrow "Failed to fetch jobs" |}.

Definition getOutputUrl (jobId : string) : string :=
  PITSTOP_API_BASE ++ "/api/pitstop/jobs/" ++ jobId ++ "/output".

(** ** [src/pages/PitstopPage.tsx]: the state of the page *)

(** Timer ids are the positive integers [setInterval] hands out; object
    URLs are named by a serial number. *)
Abbreviation TimerId := positive.
Abbreviation ObjectUrl := nat.

(** File state *)
Record FileState : Type := {
  file : option File;
  fileUrl : option ObjectUrl
}.

(** Job state *)
Record JobState : Type := {
  jobId : option string;
  job : option PitstopJob.t;
  status : UIJobStatus;
  progress : Q;
  logs : list string;
  error : option string
}.

(** Output state *)
Record OutputState : Type := {
  outputUrl : option string;
  outputBlobUrl : option ObjectUrl;
  isLoadingOutput : bool
}.

(** Run history state and pagination state *)
Record HistoryState : Type := {
  runHistory : list PitstopJobListItem.t;
  isLoadingHistory : bool;
  loadingJobId : option string;
  page : Z;
  rowsPerPage : Z;
  totalJobs : Z
}.

(** The part of the browser the page acts on. *)
Record Browser : Type := {
  intervals : gset TimerId;
  nextInterval : TimerId;
  objectUrls : gset ObjectUrl;
  nextObjectUrl : ObjectUrl;
  requests : list Request
}.

Record State : Type := {
  fileState : FileState;
  jobState : JobState;
  outputState : OutputState;
  historyState : HistoryState;
  pollIntervalRef : option TimerId;
  browser : Browser
}.

(** The state variables a callback reads from the render that made it. *)
Record Closure : Type := {
  cFile : option File;
  cFileUrl : option ObjectUrl;
  cOutputBlobUrl : option ObjectUrl
}.

Definition render (s : State) : Closure :=
  {| cFile := file (fileState s);
     cFileUrl := fileUrl (fileState s);
     cOutputBlobUrl := outputBlobUrl (outputState s) |}.

(** The state of the first render, in a browser with nothing live. *)
Definition initialState : State :=
  {| fileState := {| file := None; fileUrl := None |};
     jobState := {| jobId := None; job := None; status := idle; progress := 0%Q;
                    logs := []; error := None |};
     outputState := {| outputUrl := None; outputBlobUrl := None;
                       isLoadingOutput := false |};
     historyState := {| runHistory := []; isLoadingHistory := false;
                        loadingJobId := None; page := 1; rowsPerPage := 5;
                        totalJobs := 0 |};
     pollIntervalRef := None;
     browser := {| intervals := ∅; nextInterval := 1%positive;
                   objectUrls := ∅; nextObjectUrl := 0%nat; requests := [] |} |}.

(** *** State transformers *)

Definition Action : Type := State -> State.

Definition andThen (a b : Action) : Action := fun s => b (a s).
Notation "a >>> b" := (andThen a b) (at level 60, right associativity).

Definition skip : Action := fun s => s.

Definition onFile (f : FileState -> FileState) : Action := fun s =>
  {| fileState := f (fileState s); jobState := jobState s;
     outputState := outputState s; historyState := historyState s;
     pollIntervalRef := pollIntervalRef s; browser := browser s |}.

Definition onJob (f : JobState -> JobState) : Action := fun s =>
  {| fileState := fileState s; jobState := f (jobState s);
     outputState := outputState s; historyState := historyState s;
     pollIntervalRef := pollIntervalRef s; browser := browser s |}.

Definition onOutput (f : OutputState -> OutputState) : Action := fun s =>
  {| fileState := fileState s; jobState := jobState s;
     outputState := f (outputState s); historyState := historyState s;
     pollIntervalRef := pollIntervalRef s; browser := browser s |}.

Definition onHistory (f : HistoryState -> HistoryState) : Action := fun s =>
  {| fileState := fileState s; jobState := jobState s;
     outputState := outputState s; historyState := f (historyState s);
     pollIntervalRef := pollIntervalRef s; browser := browser s |}.

Definition onBrowser (f : Browser -> Browser) : Action := fun s =>
  {| fileState := fileState s; jobState := jobState s;
     outputState := outputState s; historyState := historyState s;
     pollIntervalRef := pollIntervalRef s; browser := f (browser s) |}.

(** [pollIntervalRef.current = v] *)
Definition setPollIntervalRef (v : option TimerId) : Action := fun s =>
  {| fileState := fileState s; jobState := jobState s;
     outputState := outputState s; historyState := historyState s;
     pollIntervalRef := v; browser := browser s |}.

(** The [useState] setters. *)
Definition setFile (v : option File) : Action :=
  onFile (fun f => {| file := v; fileUrl := fileUrl f |}).
Definition setFileUrl (v : option ObjectUrl) : Action :=
  onFile (fun f => {| file := file f; fileUrl := v |}).

Definition setJobId (v : option string) : Action :=
  onJob (fun j => {| jobId := v; job := job j; status := status j;
                     progress := progress j; logs := logs j; error := error j |}).
Definition setJob (v : option PitstopJob.t) : Action :=
  onJob (fun j => {| jobId := jobId j; job := v; status := status j;
                     progress := progress j; logs := logs j; error := error j |}).
Definition setStatus (v : UIJobStatus) : Action :=
  onJob (fun j => {| jobId := jobId j; job := job j; status := v;
                     progress := progress j; logs := logs j; error := error j |}).
Definition setProgress (v : Q) : Action :=
  onJob (fun j => {| jobId := jobId j; job := job j; status := status j;
                     progress := v; logs := logs j; error := error j |}).
Definition setLogs (v : list string) : Action :=
  onJob (fun j => {| jobId := jobId j; job := job j; status := status j;
                     progress := progress j; logs := v; error := error j |}).
Definition setError (v : option string) : Action :=
  onJob (fun j => {| jobId := jobId j; job := job j; status := status j;
                     progress := progress j; logs := logs j; error := v |}).
(** [setLogs(prev => [...prev, line])] *)
Definition appendLog (line : string) : Action :=
  fun s => setLogs (logs (jobState s) ++ [line]) s.

Definition setOutputUrl (v : option string) : Action :=
  onOutput (fun o => {| outputUrl := v; outputBlobUrl := outputBlobUrl o;
                        isLoadingOutput := isLoadingOutput o |}).
Definition setOutputBlobUrl (v : option ObjectUrl) : Action :=
  onOutput (fun o => {| outputUrl := outputUrl o; outputBlobUrl := v;
                        isLoadingOutput := isLoadingOutput o |}).
Definition setIsLoadingOutput (v : bool) : Action :=
  onOutput (fun o => {| outputUrl := outputUrl o; outputBlobUrl := outputBlobUrl o;
                        isLoadingOutput := v |}).

Definition setRunHistory (v : list PitstopJobListItem.t) : Action :=
  onHistory (fun h => {| runHistory := v; isLoadingHistory := isLoadingHistory h;
                         loadingJobId := loadingJobId h; page := page h;
                         rowsPerPage := rowsPerPage h; totalJobs := totalJobs h |}).
Definition setIsLoadingHistory (v : bool) : Action :=
  onHistory (fun h => {| runHistory := runHistory h; isLoadingHistory := v;
                         loadingJobId := loadingJobId h; page := page h;
                         rowsPerPage := rowsPerPage h; totalJobs := totalJobs h |}).
Definition setLoadingJobId (v : option string) : Action :=
  onHistory (fun h => {| runHistory := runHistory h;
                         isLoadingHistory := isLoadingHistory h;
                         loadingJobId := v; page := page h;
                         rowsPerPage := rowsPerPage h; totalJobs := totalJobs h |}).
Definition setPage (v : Z) : Action :=
  onHistory (fun h => {| runHistory := runHistory h;
                         isLoadingHistory := isLoadingHistory h;
                         loadingJobId := loadingJobId h; page := v;
                         rowsPerPage := rowsPerPage h; totalJobs := totalJobs h |}).
Definition setRowsPerPage (v : Z) : Action :=
  onHistory (fun h => {| runHistory := runHistory h;
                         isLoadingHistory := isLoadingHistory h;
                         loadingJobId := loadingJobId h; page := page h;
                         rowsPerPage := v; totalJobs := totalJobs h |}).
Definition setTotalJobs (v : Z) : Action :=
  onHistory (fun h => {| runHistory := runHistory h;
                         isLoadingHistory := isLoadingHistory h;
                         loadingJobId := loadingJobId h; page := page h;
                         rowsPerPage := rowsPerPage h; totalJobs := v |}).

(** *** Browser primitives *)

(** [fetch(...)]: the request leaves the page. *)
Definition fetch (r : Request) : Action :=
  onBrowser (fun b => {| intervals := intervals b; nextInterval := nextInterval b;
                         objectUrls := objectUrls b;
                         nextObjectUrl := nextObjectUrl b;
                         requests := requests b ++ [r] |}).

(** [window.setInterval(...)]: a new live timer; its id is returned. *)
Definition setInterval (s : State) : TimerId * State :=
  let t := nextInterval (browser s) in
  (t, onBrowser (fun b => {| intervals := {[t]} ∪ intervals b;
                             nextInterval := Pos.succ t;
                             objectUrls := objectUrls b;
                             nextObjectUrl := nextObjectUrl b;
                             requests := requests b |}) s).

(** [clearInterval(t)] *)
Definition clearInterval (t : TimerId) : Action :=
  onBrowser (fun b => {| intervals := intervals b ∖ {[t]};
                         nextInterval := nextInterval b;
                         objectUrls := objectUrls b;
                         nextObjectUrl := nextObjectUrl b;
                         requests := requests b |}).

(** [URL.createObjectURL(...)]: a new live handle; it is returned. *)
Definition createObjectURL (s : State) : ObjectUrl * State :=
  let u := nextObjectUrl (browser s) in
  (u, onBrowser (fun b => {| intervals := intervals b;
                             nextInterval := nextInterval b;
                             objectUrls := {[u]} ∪ objectUrls b;
                             nextObjectUrl := S u;
                             requests := requests b |}) s).

(** [URL.revokeObjectURL(u)]; revoking a URL that is not live does
    nothing. *)
Definition revokeObjectURL (u : ObjectUrl) : Action :=
  onBrowser (fun b => {| intervals := intervals b;
                         nextInterval := nextInterval b;
                         objectUrls := objectUrls b ∖ {[u]};
                         nextObjectUrl := nextObjectUrl b;
                         requests := requests b |}).

(** [if (u) URL.revokeObjectURL(u)] *)
Definition revokeIfSet (u : option ObjectUrl) : Action :=
  match u with
  | Some u => revokeObjectURL u
  | None => skip
  end.

(** *** Callbacks *)

Definition POLL_INTERVAL_MS : Z := 1500.

(** Fetch run history from the API with pagination. *)
Definition fetchRunHistory (pageNum perPage : Z)
    (o : Outcome (Json PitstopJobListResponse.t)) : Action :=
  setIsLoadingHistory true >>>
  (let offset := (pageNum - 1) * perPage in
   let call := getJobs perPage offset in
   fetch (request call) >>>
   match settle call o with
   | Ok response =>
       setRunHistory (PitstopJobListResponse.items response) >>>
       setTotalJobs (PitstopJobListResponse.total response)
   | Err _ => skip (* logged to the console only: non-critical *)
   end) >>>
  setIsLoadingHistory false.

(** The effect on [page] and [rowsPerPage]: after a render in which either
    changed, the history is fetched for the values of that render. *)
Definition historyEffect (o : Outcome (Json PitstopJobListResponse.t)) : Action :=
  fun s => fetchRunHistory (page (historyState s)) (rowsPerPage (historyState s)) o s.

(** Stop polling. *)
Definition stopPolling : Action := fun s =>
  match pollIntervalRef s with
  | Some t => (clearInterval t >>> setPollIntervalRef None) s
  | None => s
  end.

(** Cleanup blob URLs. *)
Definition cleanupBlobUrls (c : Closure) : Action :=
  match cOutputBlobUrl c with
  | Some u => revokeObjectURL u >>> setOutputBlobUrl None
  | None => skip
  end.

(** Fetch the output video as a blob and wrap it in an object URL. *)
Definition fetchOutputAsBlob (c : Closure) (id : string) (o : Outcome Blob) : Action :=
  setIsLoadingOutput true >>>
  fetch (GET_output id) >>>
  match o with
  | Responded res =>
      if negb (ok res) then
        setError (Some ("Failed to fetch output video: " ++ statusLine res))
      else
        revokeIfSet (cOutputBlobUrl c) >>>
        (fun s => let (blobUrl, s') := createObjectURL s in
                  setOutputBlobUrl (Some blobUrl) s')
  | NetworkFailure message => setError (Some message)
  end >>>
  setIsLoadingOutput false.

(** Poll for job status.  The body up to its [await] sends the request; the
    rest runs when the request settles. *)
Definition pollJobStatus_request (id : string) : Action :=
  fetch (request (getJob id)).

Definition pollJobStatus_response (c : Closure) (id : string)
    (oJob : Outcome (Json PitstopJob.t)) (oOut : Outcome Blob) : Action :=
  match settle (getJob id) oJob with
  | Ok jobData =>
      setJob (Some jobData) >>>
      setStatus (mapBackendToUIStatus (Some (PitstopJob.status jobData))
                                      (PitstopJob.stage jobData)) >>>
      match PitstopJob.progress jobData with
      | Some p => setProgress (p * 100)%Q
      | None => skip
      end >>>
      match PitstopJob.logs jobData with
      | Some (l :: ls) => setLogs (l :: ls)
      | Some [] | None => skip
      end >>>
      if String.eqb (PitstopJob.status jobData) "COMPLETE" then
        setOutputUrl (Some (getOutputUrl id)) >>>
        setProgress 100%Q >>>
        stopPolling >>>
        fetchOutputAsBlob c id oOut
      else if String.eqb (PitstopJob.status jobData) "FAILED" then
        setError (Some "Job processing failed. Check logs for details.") >>>
        stopPolling
      else skip
  | Err message =>
      setError (Some message) >>>
      stopPolling
  end.

Definition pollJobStatus (c : Closure) (id : string)
    (oJob : Outcome (Json PitstopJob.t)) (oOut : Outcome Blob) : Action :=
  pollJobStatus_request id >>> pollJobStatus_response c id oJob oOut.

(** Start polling: the initial poll is sent, then the interval is set up
    and its id stored in the ref.  The initial poll settles later. *)
Definition startPolling (id : string) : Action :=
  pollJobStatus_request id >>>
  (fun s => let (t, s') := setInterval s in setPollIntervalRef (Some t) s').

(** Handle file selection. *)
Definition handleFileSelect (c : Closure) (selectedFile : option File) : Action :=
  stopPolling >>>
  cleanupBlobUrls c >>>
  revokeIfSet (cFileUrl c) >>>
  setFile selectedFile >>>
  match selectedFile with
  | Some _ => fun s => let (url, s') := createObjectURL s in setFileUrl (Some url) s'
  | None => setFileUrl None
  end >>>
  setStatus idle >>>
  setProgress 0%Q >>>
  setLogs [] >>>
  setOutputUrl None >>>
  setJobId None >>>
  setJob None >>>
  setError None.

(** Run the job. *)
Definition runJob (c : Closure) (o : Outcome (Json CreateJobResponse)) : Action :=
  match cFile c with
  | None => setError (Some "Please select a video file first.")
  | Some f =>
      cleanupBlobUrls c >>>
      setError None >>>
      setLogs [] >>>
      setProgress 0%Q >>>
      setOutputUrl None >>>
      setJob None >>>
      setStatus uploading >>>
      setLogs ["[INFO] Uploading video to server..."] >>>
      fetch (request (createJob f None)) >>>
      match settle (createJob f None) o with
      | Ok response =>
          setJobId (Some (PitstopJob.job_id response)) >>>
          setJob (Some response) >>>
          appendLog ("[INFO] Job created: " ++ PitstopJob.job_id response) >>>
          setStatus (mapBackendToUIStatus (Some (PitstopJob.status response))
                                          (PitstopJob.stage response)) >>>
          startPolling (PitstopJob.job_id response)
      | Err message =>
          setStatus failed >>>
          setError (Some message) >>>
          appendLog ("[ERROR] " ++ message)
      end
  end.

(** Reset everything. *)
Definition handleReset (c : Closure) : Action :=
  stopPolling >>>
  cleanupBlobUrls c >>>
  revokeIfSet (cFileUrl c) >>>
  setFile None >>>
  setFileUrl None >>>
  setStatus idle >>>
  setProgress 0%Q >>>
  setLogs [] >>>
  setOutputUrl None >>>
  setJobId None >>>
  setJob None >>>
  setError None.

(** Load a job from history. *)
Definition handleLoadJob (c : Closure) (historyJob : PitstopJobListItem.t)
    (oJob : Outcome (Json PitstopJob.t)) (oOut : Outcome Blob) : Action :=
  if negb (String.eqb (PitstopJobListItem.status historyJob) "COMPLETE")
     || negb (PitstopJobListItem.has_output historyJob)
  then skip (* can only load complete jobs with output *)
  else
    let id := PitstopJobListItem.job_id historyJob in
    setLoadingJobId (Some id) >>>
    stopPolling >>>
    cleanupBlobUrls c >>>
    fetch (request (getJob id)) >>>
    match settle (getJob id) oJob with
    | Ok fullJob =>
        setFile None >>>
        setFileUrl None >>>
        setJobId (Some id) >>>
        setJob (Some fullJob) >>>
        setStatus (mapBackendToUIStatus (Some (PitstopJob.status fullJob))
                                        (PitstopJob.stage fullJob)) >>>
        setProgress (match PitstopJob.progress fullJob with
                     | Some p => (p * 100)%Q
                     | None => 100%Q
                     end) >>>
        setLogs (match PitstopJob.logs fullJob with
                 | Some l => l
                 | None => ["[INFO] Loaded from run history"]
                 end) >>>
        setOutputUrl (Some (getOutputUrl id)) >>>
        setError None >>>
        fetchOutputAsBlob c id oOut
    | Err message => setError (Some message)
    end >>>
    setLoadingJobId None.

(** Pagination handlers. *)
Definition handlePageChange (newPage : Z) : Action := setPage newPage.

Definition handleRowsPerPageChange (newRowsPerPage : Z) : Action :=
  setRowsPerPage newRowsPerPage >>>
  setPage 1.

(** Computed values. *)
Definition isRunning (s : State) : bool :=
  bool_decide (status (jobState s) ∈ [uploading; queued; processing; rendering]).

Definition canRun (s : State) : bool :=
  bool_decide (file (fileState s) <> None) && negb (isRunning s).

(** *** What a settled poll means for the loop *)


(** The first four updates of a settled poll: the snapshot, the status it
    projects to, its progress and its logs. *)
Definition applySnapshot (jobData : PitstopJob.t) : Action :=
  setJob (Some jobData) >>>
  setStatus (mapBackendToUIStatus (Some (PitstopJob.status jobData))
                                  (PitstopJob.stage jobData)) >>>
  match PitstopJob.progress jobData with
  | Some p => setProgress (p * 100)%Q
  | None => skip
  end >>>
  match PitstopJob.logs jobData with
  | Some (l :: ls) => setLogs (l :: ls)
  | Some [] | None => skip
  end.

(** The updates of [handleLoadJob] between the arrival of the full job and
    the fetch of its output. *)
Definition showLoadedJob (id : string) (fullJob : PitstopJob.t) : Action :=
  setFile None >>>
  setFileUrl None >>>
  setJobId (Some id) >>>
  setJob (Some fullJob) >>>
  setStatus (mapBackendToUIStatus (Some (PitstopJob.status fullJob))
                                  (PitstopJob.stage fullJob)) >>>
  setProgress (match PitstopJob.progress fullJob with
               | Some p => (p * 100)%Q
               | None => 100%Q
               end) >>>
  setLogs (match PitstopJob.logs fullJob with
           | Some l => l
           | None => ["[INFO] Loaded from run history"]
           end) >>>
  setOutputUrl (Some (getOutputUrl id)) >>>
  setError None.

(** ** Sample inputs *)

Definition sampleFile : File := {| fileName := "pit.mp4"; fileSize := 1024 |}.

(** An error object read at the type of a job: it has none of a job's
    fields. *)
Definition noJob : PitstopJob.t :=
  {| PitstopJob.job_id := ""; PitstopJob.status := "";
     PitstopJob.stage := None; PitstopJob.progress := None;
     PitstopJob.logs := None |}.

Definition emptyDetailReply : Response (Json CreateJobResponse) :=
  {| code := 400; statusText := "Bad Request";
     body := Parsed (JObject [("detail", JString "")]) noJob |}.

(** A validation error as FastAPI sends it: [detail] is a list of
    objects. *)
Definition validationErrorReply : Response (Json CreateJobResponse) :=
  {| code := 422; statusText := "Unprocessable Entity";
     body := Parsed (JObject [("detail",
                               JArray [JObject [("msg", JString "field required")];
                                       JObject [("msg", JString "field required")]])])
                    noJob |}.

Definition nullBodyReply : Response (Json CreateJobResponse) :=
  {| code := 500; statusText := "Internal Server Error";
     body := Parsed JNull noJob |}.

Definition completeJob : PitstopJob.t :=
  {| PitstopJob.job_id := "job-1"; PitstopJob.status := "COMPLETE";
     PitstopJob.stage := Some "COMPLETE"; PitstopJob.progress := Some 1%Q;
     PitstopJob.logs := Some ["[INFO] done"] |}.

Definition completeSummary : PitstopJobListItem.t :=
  {| PitstopJobListItem.job_id := "job-1"; PitstopJobListItem.status := "COMPLETE";
     PitstopJobListItem.stage := "COMPLETE"; PitstopJobListItem.progress := 1%Q;
     PitstopJobListItem.input_filename := "pit.mp4";
     PitstopJobListItem.has_output := true |}.

Definition processingSummary : PitstopJobListItem.t :=
  {| PitstopJobListItem.job_id := "job-2"; PitstopJobListItem.status := "PROCESSING";
     PitstopJobListItem.stage := "DETECTING"; PitstopJobListItem.progress := (1 # 2)%Q;
     PitstopJobListItem.input_filename := "pit.mp4";
     PitstopJobListItem.has_output := false |}.

Definition okReply {B} (b : B) : Response B :=
  {| code := 200; statusText := "OK"; body := b |}.

Definition outputVideo : Blob := {| blob_size := 2048; blob_type := "video/mp4" |}.

Definition outputUnavailable : Response Blob :=
  {| code := 500; statusText := "Internal Server Error";
     body := {| blob_size := 0; blob_type := "" |} |}.

(** The page right after a first [startPolling]: one loop is live. *)
Definition polling : State := startPolling "job-1" initialState.

(** A tick of that loop that finds the job complete while the output
    endpoint answers 500. *)
Definition completeTickOutputUnavailable : State :=
  pollJobStatus (render polling) "job-1"
    (Responded (okReply (Payload completeJob))) (Responded outputUnavailable)
    polling.

(** The first render, moved to page 3 of the history. *)
Definition thirdPage : State := handlePageChange 3 initialState.

(** ** [src/pages/PitstopPage.tsx]: the rest of the page *)

(** The [useEffect] on [status]: when the status has just become
    [complete] or [failed], the history goes back to page 1 and is fetched
    again; a completion also opens the snackbar.  [prevStatusRef] and
    [snackbarOpen] are the ref and the state cell the effect owns. *)
Record Notifier : Type := {
  prevStatusRef : UIJobStatus;
  snackbarOpen : bool
}.

Definition completionEffect (o : Outcome (Json PitstopJobListResponse.t))
    (n : Notifier) (s : State) : Notifier * State :=
  let st := status (jobState s) in
  if bool_decide (st = complete) && negb (bool_decide (prevStatusRef n = complete)) then
    ({| prevStatusRef := st; snackbarOpen := true |},
     (setPage 1 >>> fetchRunHistory 1 (rowsPerPage (historyState s)) o) s)
  else if bool_decide (st = failed) && negb (bool_decide (prevStatusRef n = failed)) then
    ({| prevStatusRef := st; snackbarOpen := snackbarOpen n |},
     (setPage 1 >>> fetchRunHistory 1 (rowsPerPage (historyState s)) o) s)
  else
    ({| prevStatusRef := st; snackbarOpen := snackbarOpen n |}, s).

(** The body of a reply of the output endpoint, as [downloadOutput] reads
    it: [response.blob()] on success, [response.json()] on failure. *)
Record OutputBody : Type := {
  asBlob : Blob;
  asJson : Json unit
}.

(** The anchor [downloadOutput] clicks: its [href] and [download]. *)
Record Anchor : Type := {
  href : ObjectUrl;
  download : string
}.

(** [src/api/pitstopClient.ts]: download the output video as a blob and
    trigger the browser download.  The clicked anchor is the value of the
    model; the clean-up the function schedules with [setTimeout] is
    [downloadOutput_timeout]. *)
Definition downloadOutput (jobId : string) (filename : option string)
    (o : Outcome OutputBody) (s : State) : Result Anchor * State :=
  let s1 := fetch (GET_output jobId) s in
  match o with
  | NetworkFailure message => (Err message, s1)
  | Responded response =>
      if negb (ok response) then
        (Err (thrownMessage (asJson (body response))
                            ("Download failed: " ++ statusLine response)), s1)
      else
        let (blobUrl, s2) := createObjectURL s1 in
        (Ok {| href := blobUrl;
               download := orElse filename ("pitstop_output_" ++ jobId ++ ".mp4") |},
         s2)
  end.

Definition downloadOutput_timeout (a : Anchor) : Action :=
  revokeObjectURL (href a).

(** Download output.  [jobId] is the value the callback captured. *)
Definition handleDownload (jobId : option string) (o : Outcome OutputBody)
    (s : State) : option Anchor * State :=
  match jobId with
  | None => (None, s)
  | Some id =>
      if falsy id then (None, s)
      else
        match downloadOutput id (Some ("pitstop_output_" ++ id ++ ".mp4")) o s with
        | (Ok a, s') => (Some a, s')
        | (Err message, s') => (None, setError (Some message) s')
        end
  end.

(** ** [src/components/pitstop/JobProgress.tsx] *)

Module JobProgress.

Definition STEPS : list string :=
  ["Upload"; "Queued"; "Processing"; "Rendering"; "Complete"].

Definition getActiveStep (status : UIJobStatus) (stage : option string) : Z :=
  match status with
  | idle => -1
  | uploading => 0
  | queued => if stage === "UPLOAD" then 0 else 1
  | processing => 2
  | rendering => 3
  | complete => 5
  | failed => -1
  end.

Definition getProgressLabel (status : UIJobStatus) (stage : option string) : string :=
  match status with
  | uploading => "Uploading video..."
  | queued =>
      if stage === "UPLOAD" then "Finalizing upload..." else "Waiting in queue..."
  | processing =>
      if stage === "DETECTING" then "Running YOLO detection..."
      else if stage === "TRACKING" then "Tracking objects..."
      else "Processing frames..."
  | rendering => "Rendering output video..."
  | idle | complete | failed => ""
  end.

Definition isRunning (status : UIJobStatus) : bool :=
  bool_decide (status ∈ [uploading; queued; processing; rendering]).

(** [completed={activeStep > index}] for the step at [index]. *)
Definition completed (activeStep index : Z) : bool := (index <? activeStep)%Z.

End JobProgress.

(** The step the page's [<JobProgress status={status} stage={job?.stage} />]
    shows. *)
Definition activeStep (s : State) : Z :=
  JobProgress.getActiveStep
    (status (jobState s))
    (match job (jobState s) with
     | Some j => PitstopJob.stage j
     | None => None
     end).

(** ** [src/components/pitstop/RunHistoryTable.tsx] *)

Module RunHistoryTable.

(** [page={page - 1}]: the 0-based page the table shows. *)
Definition shownPage (s : State) : Z := page (historyState s) - 1.

(** [onPageChange(newPage + 1)] *)
Definition handlePageChange (newPage : Z) : Action :=
  handlePageChange (newPage + 1).

Definition canPlay (job : PitstopJobListItem.t) : bool :=
  String.eqb (PitstopJobListItem.status job) "COMPLETE"
  && PitstopJobListItem.has_output job.

(** [loadingJobId === job.job_id] *)
Definition isCurrentlyLoading (s : State) (job : PitstopJobListItem.t) : bool :=
  loadingJobId (historyState s) === PitstopJobListItem.job_id job.

(** The click on the play button of a row. *)
Definition playClick (job : PitstopJobListItem.t)
    (oJob : Outcome (Json PitstopJob.t)) (oOut : Outcome Blob) : Action :=
  fun s =>
    if canPlay job && negb (isCurrentlyLoading s job)
    then handleLoadJob (render s) job oJob oOut s
    else s.

End RunHistoryTable.

(** ** The page as a whole *)

(** Callbacks of the page and of the history table, each run from its
    first line to its last with the closure of the render on screen and
    the outcomes of its requests given: nothing else happens to the page
    between a request and its outcome.  [runJob], [pollJobStatus] and
    [handleDownload] are not among them; what happens around their
    [await]s is stated on the callbacks themselves. *)
Inductive Event : Type :=
| FileSelected (selectedFile : option File)
| ResetClicked
| PlayClicked (job : PitstopJobListItem.t)
              (oJob : Outcome (Json PitstopJob.t)) (oOut : Outcome Blob)
| PageChanged (newPage : Z)
| RowsPerPageChanged (newRowsPerPage : Z)
| HistoryFetched (o : Outcome (Json PitstopJobListResponse.t)).

Definition dispatch (e : Event) : Action := fun s =>
  match e with
  | FileSelected selectedFile => handleFileSelect (render s) selectedFile s
  | ResetClicked => handleReset (render s) s
  | PlayClicked job oJob oOut => RunHistoryTable.playClick job oJob oOut s
  | PageChanged newPage => RunHistoryTable.handlePageChange newPage s
  | RowsPerPageChanged newRowsPerPage => handleRowsPerPageChange newRowsPerPage s
  | HistoryFetched o => historyEffect o s
  end.

(** Every live interval is the one the ref holds. *)
Definition oneLoop (s : State) : Prop :=
  forall t, t ∈ intervals (browser s) -> pollIntervalRef s = Some t.

(** Every live object URL is held by one of the two URL cells. *)
Definition handlesOwned (s : State) : Prop :=
  forall u, u ∈ objectUrls (browser s) ->
            fileUrl (fileState s) = Some u \/ outputBlobUrl (outputState s) = Some u.

(** The clean-ups that run when the page unmounts: the first effect stops
    the poller and revokes the input URL, the second revokes the output
    URL, each with the values of the render that set it up. *)
Definition unmount (before : Closure) : Action :=
  stopPolling >>>
  revokeIfSet (cFileUrl before) >>>
  revokeIfSet (cOutputBlobUrl before).

(** ** [runJob] around its [await]

    [runJob] waits for [createJob]; the page stays live meanwhile.  The
    part up to the [await] runs on the click, the rest when the upload
    settles, with the [file] the click saw. *)
Definition runJob_click (c : Closure) : Action :=
  match cFile c with
  | None => setError (Some "Please select a video file first.")
  | Some f =>
      cleanupBlobUrls c >>>
      setError None >>>
      setLogs [] >>>
      setProgress 0%Q >>>
      setOutputUrl None >>>
      setJob None >>>
      setStatus uploading >>>
      setLogs ["[INFO] Uploading video to server..."] >>>
      fetch (request (createJob f None))
  end.

Definition runJob_settled (f : File) (o : Outcome (Json CreateJobResponse)) : Action :=
  match settle (createJob f None) o with
  | Ok response =>
      setJobId (Some (PitstopJob.job_id response)) >>>
      setJob (Some response) >>>
      appendLog ("[INFO] Job created: " ++ PitstopJob.job_id response) >>>
      setStatus (mapBackendToUIStatus (Some (PitstopJob.status response))
                                      (PitstopJob.stage response)) >>>
      startPolling (PitstopJob.job_id response)
  | Err message =>
      setStatus failed >>>
      setError (Some message) >>>
      appendLog ("[ERROR] " ++ message)
  end.

(** ** More sample inputs *)

Definition queuedJob : PitstopJob.t :=
  {| PitstopJob.job_id := "job-7"; PitstopJob.status := "QUEUED";
     PitstopJob.stage := Some "UPLOAD"; PitstopJob.progress := Some 0%Q;
     PitstopJob.logs := None |}.

(** The first render after the user picked a file. *)
Definition fileChosen : State :=
  dispatch (FileSelected (Some sampleFile)) initialState.

Definition outputNotFound : Response OutputBody :=
  {| code := 404; statusText := "Not Found";
     body := {| asBlob := {| blob_size := 0; blob_type := "application/json" |};
                asJson := Parsed (JObject [("detail", JString "Output not found")])
                                 tt |} |}.

Definition outputReply : Response OutputBody :=
  okReply {| asBlob := outputVideo;
             asJson := Unparsable "Unexpected token in JSON at position 0" |}.

(** The first page of the history, as the table shows it. *)
Definition historyPage : PitstopJobListResponse.t :=
  {| PitstopJobListResponse.items := [completeSummary; processingSummary];
     PitstopJobListResponse.total := 2;
     PitstopJobListResponse.limit := 5;
     PitstopJobListResponse.offset := 0 |}.

Definition nextQueuedJob : PitstopJob.t :=
  {| PitstopJob.job_id := "job-8"; PitstopJob.status := "QUEUED";
     PitstopJob.stage := Some "UPLOAD"; PitstopJob.progress := Some 0%Q;
     PitstopJob.logs := None |}.

(** A snapshot whose status the page does not know. *)
Definition cancelledJob : PitstopJob.t :=
  {| PitstopJob.job_id := "job-7"; PitstopJob.status := "CANCELLED";
     PitstopJob.stage := None; PitstopJob.progress := None;
     PitstopJob.logs := None |}.

(** *** Run, then Run again

    The server answers the upload with a job that is already complete:
    the loop is started, and the Run button is enabled again. *)
Definition createdComplete : State :=
  runJob (render fileChosen) (Responded (okReply (Payload completeJob))) fileChosen.

Definition ranAgain : State :=
  runJob (render createdComplete) (Responded (okReply (Payload queuedJob)))
         createdComplete.

(** The job is queued and its loop live; a tick then fetches a snapshot
    with a status the page does not know, and Run is clicked again. *)
Definition createdQueued : State :=
  runJob (render fileChosen) (Responded (okReply (Payload queuedJob))) fileChosen.

Definition tickedUnknown : State :=
  pollJobStatus (render fileChosen) "job-7"
    (Responded (okReply (Payload cancelledJob))) (Responded (okReply outputVideo))
    createdQueued.

Definition ranAfterUnknown : State :=
  runJob (render tickedUnknown) (Responded (okReply (Payload nextQueuedJob)))
         tickedUnknown.

(** *** Two uploads in flight

    Run is clicked; while the upload is in flight a finished job is played
    from the history and a file is selected again, which enables Run; Run
    is clicked a second time; then both uploads settle. *)
Definition historyShown : State :=
  dispatch (HistoryFetched (Responded (okReply (Payload historyPage)))) fileChosen.

Definition firstUploading : State := runJob_click (render historyShown) historyShown.

Definition playedMeanwhile : State :=
  dispatch (PlayClicked completeSummary
              (Responded (okReply (Payload completeJob)))
              (Responded (okReply outputVideo))) firstUploading.

Definition reselected : State :=
  dispatch (FileSelected (Some sampleFile)) playedMeanwhile.

Definition secondUploading : State := runJob_click (render reselected) reselected.

Definition firstSettled : State :=
  runJob_settled sampleFile (Responded (okReply (Payload queuedJob))) secondUploading.

Definition bothSettled : State :=
  runJob_settled sampleFile (Responded (okReply (Payload nextQueuedJob))) firstSettled.

(** *** Two polls of one loop in flight

    The loop of [polling] ticks while its initial poll is still in flight;
    both polls then find the job complete. *)
Definition overlappingPolls : State :=
  pollJobStatus_response (render initialState) "job-1"
    (Responded (okReply (Payload completeJob))) (Responded (okReply outputVideo))
    (pollJobStatus_response (render initialState) "job-1"
       (Responded (okReply (Payload completeJob))) (Responded (okReply outputVideo))
       (pollJobStatus_request "job-1" polling)).

(** * Properties of the projection *)

Lemma strictEq_false (x : option string) (lit : string) :
  x <> Some lit -> x === lit = false.
Proof.
  destruct x as [s|]; simpl; [|reflexivity].
  intros Hne. apply String.eqb_neq. congruence.
Qed.

(** C1: the seven rows of the projection table.  With no status the
    projection is ([idle], -1); [QUEUED] gives ([queued], 0) at stage
    [UPLOAD] and ([queued], 1) at any other stage; [PROCESSING] gives
    ([rendering], 3) at stage [RENDERING] and ([processing], 2) at any
    other stage; [COMPLETE] gives ([complete], 5) and [FAILED] gives
    ([failed], -1) at every stage. *)
Theorem projection_table :
  (forall stage,
      mapBackendToUIStatus None stage = idle /\
      getStepFromBackend None stage = -1) /\
  (mapBackendToUIStatus (Some "QUEUED") (Some "UPLOAD") = queued /\
   getStepFromBackend (Some "QUEUED") (Some "UPLOAD") = 0) /\
  (forall stage, stage <> Some "UPLOAD" ->
      mapBackendToUIStatus (Some "QUEUED") stage = queued /\
      getStepFromBackend (Some "QUEUED") stage = 1) /\
  (mapBackendToUIStatus (Some "PROCESSING") (Some "RENDERING") = rendering /\
   getStepFromBackend (Some "PROCESSING") (Some "RENDERING") = 3) /\
  (forall stage, stage <> Some "RENDERING" ->
      mapBackendToUIStatus (Some "PROCESSING") stage = processing /\
      getStepFromBackend (Some "PROCESSING") stage = 2) /\
  (forall stage,
      mapBackendToUIStatus (Some "COMPLETE") stage = complete /\
      getStepFromBackend (Some "COMPLETE") stage = 5) /\
  (forall stage,
      mapBackendToUIStatus (Some "FAILED") stage = failed /\
      getStepFromBackend (Some "FAILED") stage = -1).
Proof.
  repeat match goal with
         | |- _ /\ _ => split
         | |- forall _, _ => intro
         end;
    try reflexivity;
    match goal with
    | H : _ <> Some _ |- _ => simpl; rewrite (strictEq_false _ _ H)
    end;
    try reflexivity.
  now destruct (_ || _).
Qed.

Lemma projection_table_witness :
  mapBackendToUIStatus (Some "QUEUED") (Some "DETECTING") = queued /\
  getStepFromBackend (Some "QUEUED") (Some "DETECTING") = 1 /\
  mapBackendToUIStatus (Some "PROCESSING") None = processing /\
  getStepFromBackend (Some "PROCESSING") (Some "TRANSCODING") = 2.
Proof.
  destruct projection_table as (_ & _ & Hq & _ & Hp & _).
  repeat apply conj.
  - apply (Hq (Some "DETECTING")). discriminate.
  - apply (Hq (Some "DETECTING")). discriminate.
  - apply (Hp None). discriminate.
  - apply (Hp (Some "TRANSCODING")). discriminate.
Defined.

(** C9: a status outside the four backend statuses (or no status at all)
    projects to [idle] and step [-1]; every step the projection yields is
    one of the stepper positions, and [4] is never among them. *)
Theorem projection_unknown_status :
  (forall status stage,
      (forall st, In st PitstopJobStatus -> status <> Some st) ->
      mapBackendToUIStatus status stage = idle /\
      getStepFromBackend status stage = -1) /\
  (forall status stage,
      In (mapBackendToUIStatus status stage)
         [idle; queued; processing; rendering; complete; failed]) /\
  (forall status stage,
      In (getStepFromBackend status stage) StepperPosition /\
      getStepFromBackend status stage <> 4).
Proof.
  split; [|split].
  - intros [st|] stage Hunknown; [|now split].
    assert (Hne : forall lit, In lit PitstopJobStatus -> String.eqb st lit = false).
    { intros lit Hin. apply String.eqb_neq. intros ->. now apply (Hunknown lit). }
    unfold mapBackendToUIStatus, getStepFromBackend.
    rewrite !Hne by (simpl; tauto).
    now destruct (falsy st).
  - intros [st|] stage; simpl; [|tauto].
    repeat match goal with
           | |- context [if ?b then _ else _] => destruct b
           end; simpl; tauto.
  - intros [st|] stage; simpl.
    + repeat match goal with
             | |- context [if ?b then _ else _] => destruct b
             end; simpl; split; (tauto || discriminate).
    + split; [tauto | discriminate].
Qed.

Lemma projection_unknown_status_witness :
  mapBackendToUIStatus (Some "CANCELLED") (Some "RENDERING") = idle /\
  getStepFromBackend (Some "CANCELLED") (Some "RENDERING") = -1.
Proof.
  apply (proj1 projection_unknown_status (Some "CANCELLED") (Some "RENDERING")).
  intros st Hin. simpl in Hin.
  destruct Hin as [<-|[<-|[<-|[<-|[]]]]]; discriminate.
Defined.

(** * The REST client *)

(** C7, as stated, fails: a non-2xx reply whose body has a [detail] field
    holding the empty string yields the generic message, not the field. *)
Lemma createJob_empty_detail_counterexample :
  ok emptyDetailReply = false /\
  errorDataDetail (body emptyDetailReply) = Some (Some (JString "")) /\
  settle (createJob sampleFile None) (Responded emptyDetailReply) <> Err "" /\
  settle (createJob sampleFile None) (Responded emptyDetailReply) =
    Err "Upload failed: 400 Bad Request".
Proof. vm_compute. repeat split; congruence. Qed.

(** What the amended claim leaves out: a [detail] that is truthy but not a
    string is converted by [String()], and a body that is JSON [null]
    makes the read of [detail] throw. *)
Lemma createJob_detail_conversion :
  settle (createJob sampleFile None) (Responded validationErrorReply) =
    Err "[object Object],[object Object]" /\
  settle (createJob sampleFile None) (Responded nullBodyReply) =
    Err nullPropertyError.
Proof. split; reflexivity. Qed.

(** C7, amended: for a non-2xx reply to the submission the error carries
    the [detail] field of the body when the body is a JSON object whose
    [detail] is a string that is not empty; it carries
    "Upload failed: <status> <statusText>" when the body is not JSON, when
    it is JSON other than [null] without a [detail] field (a job among
    them), and when its [detail] is [null], [false], zero or the empty
    string. *)
Theorem createJob_error_message file meta (r : Response (Json CreateJobResponse)) :
  ok r = false ->
  (forall fields seenAs d,
      body r = Parsed (JObject fields) seenAs ->
      ownProperty "detail" fields = Some (JString d) ->
      d <> "" ->
      settle (createJob file meta) (Responded r) = Err d) /\
  (forall message,
      body r = Unparsable message ->
      settle (createJob file meta) (Responded r) =
        Err ("Upload failed: " ++ pretty (code r) ++ " " ++ statusText r)) /\
  (forall value seenAs,
      body r = Parsed value seenAs ->
      value <> JNull ->
      (forall fields, value = JObject fields -> ownProperty "detail" fields = None) ->
      settle (createJob file meta) (Responded r) =
        Err ("Upload failed: " ++ pretty (code r) ++ " " ++ statusText r)) /\
  (forall job,
      body r = Payload job ->
      settle (createJob file meta) (Responded r) =
        Err ("Upload failed: " ++ pretty (code r) ++ " " ++ statusText r)) /\
  (forall fields seenAs d,
      body r = Parsed (JObject fields) seenAs ->
      ownProperty "detail" fields = Some d ->
      d = JNull \/ d = JBool false \/ d = JString "" \/
      (exists n, d = JNumber n /\ numberIsZero n = true) ->
      settle (createJob file meta) (Responded r) =
        Err ("Upload failed: " ++ pretty (code r) ++ " " ++ statusText r)).
Proof.
  intros Hok. cbn [settle createJob jsonOrThrow]. rewrite Hok. cbn [negb].
  unfold thrownMessage, statusLine. repeat split.
  - intros fields seenAs d -> Hd Hne. cbn [errorDataDetail readDetail].
    rewrite Hd. cbn [truthy toString]. unfold falsy.
    now rewrite (proj2 (String.eqb_neq d "") Hne).
  - now intros message ->.
  - intros value seenAs -> Hnull Hno. cbn [errorDataDetail].
    destruct value; try reflexivity; [congruence|].
    cbn [readDetail]. now rewrite (Hno fields eq_refl).
  - now intros job ->.
  - intros fields seenAs d -> Hd Hfalsy. cbn [errorDataDetail readDetail].
    rewrite Hd.
    destruct Hfalsy as [-> | [-> | [-> | (n & -> & Hz)]]]; cbn [truthy];
      rewrite ?Hz; reflexivity.
Qed.

Lemma createJob_error_message_witness :
  settle (createJob sampleFile None)
    (Responded {| code := 413; statusText := "Payload Too Large";
                  body := Parsed (JObject [("detail", JString "File too large")])
                                 noJob |})
  = Err "File too large" /\
  settle (createJob sampleFile None)
    (Responded {| code := 502; statusText := "Bad Gateway";
                  body := Unparsable "Unexpected token < in JSON at position 0" |})
  = Err "Upload failed: 502 Bad Gateway".
Proof.
  split.
  - refine (proj1 (createJob_error_message _ None
              {| code := 413; statusText := "Payload Too Large";
                 body := Parsed (JObject [("detail", JString "File too large")])
                                noJob |} _)
              [("detail", JString "File too large")] noJob "File too large" _ _ _);
      [reflexivity | reflexivity | reflexivity | discriminate].
  - refine (proj1 (proj2 (createJob_error_message _ None
              {| code := 502; statusText := "Bad Gateway";
                 body := Unparsable "Unexpected token < in JSON at position 0" |} _))
              _ _);
      reflexivity.
Defined.

(** * The history pager *)

(** What a history fetch does to the page, whatever the outcome: one
    request for the window, and the loading flag back off. *)
Lemma fetchRunHistory_request pageNum perPage o s :
  requests (browser (fetchRunHistory pageNum perPage o s)) =
  (requests (browser s) ++ [GET_jobs perPage ((pageNum - 1) * perPage)])%list.
Proof.
  unfold fetchRunHistory, andThen. cbn [request getJobs].
  destruct (settle _ o); reflexivity.
Qed.

(** C6: the history fetch for page [p] and page size [r] requests
    [limit = r], [offset = (p - 1) * r] and installs the items and the
    total of the reply; changing the rows per page sets the page to 1, so
    that from page 3 with 5 rows, choosing 10 rows makes the next fetch ask
    for [offset = 0], [limit = 10]. *)
Theorem history_window_fetch :
  (forall p r o s,
      requests (browser (fetchRunHistory p r o s)) =
      (requests (browser s) ++ [GET_jobs r ((p - 1) * r)])%list) /\
  (forall p r code statusText response s,
      let reply := {| code := code; statusText := statusText;
                      body := Payload response |} in
      let s' := fetchRunHistory p r (Responded reply) s in
      ok reply = true ->
      runHistory (historyState s') = PitstopJobListResponse.items response /\
      totalJobs (historyState s') = PitstopJobListResponse.total response) /\
  (forall n s,
      page (historyState (handleRowsPerPageChange n s)) = 1 /\
      rowsPerPage (historyState (handleRowsPerPageChange n s)) = n) /\
  (forall o s,
      page (historyState s) = 3 ->
      rowsPerPage (historyState s) = 5 ->
      let s' := historyEffect o (handleRowsPerPageChange 10 s) in
      page (historyState s') = 1 /\
      requests (browser s') = (requests (browser s) ++ [GET_jobs 10 0])%list).
Proof.
  split; [|split; [|split]].
  - apply fetchRunHistory_request.
  - intros p r code0 st response s reply s' Hok. subst s'.
    unfold fetchRunHistory, andThen. cbn [settle getJobs jsonOrThrow].
    rewrite Hok. now cbn.
  - now intros n s.
  - intros o s _ _ s'. subst s'. unfold historyEffect.
    rewrite fetchRunHistory_request. split; [|reflexivity].
    unfold fetchRunHistory, andThen. cbn [settle getJobs].
    destruct (jsonOrThrow _ o); reflexivity.
Qed.

(** C10: when the history fetch fails, the items, the total and the
    pagination stay as they were, the error field is untouched and the
    loading flag ends off; the page differs from the one before the fetch
    only in that flag and in the request that was sent. *)
Theorem fetchRunHistory_failure_keeps_window pageNum perPage o message s :
  settle (getJobs perPage ((pageNum - 1) * perPage)) o = Err message ->
  let s' := fetchRunHistory pageNum perPage o s in
  runHistory (historyState s') = runHistory (historyState s) /\
  totalJobs (historyState s') = totalJobs (historyState s) /\
  page (historyState s') = page (historyState s) /\
  rowsPerPage (historyState s') = rowsPerPage (historyState s) /\
  error (jobState s') = error (jobState s) /\
  isLoadingHistory (historyState s') = false /\
  s' = (fetch (GET_jobs perPage ((pageNum - 1) * perPage)) >>>
        setIsLoadingHistory false) s.
Proof.
  intros Hfail s'. subst s'.
  unfold fetchRunHistory, andThen. cbv zeta. rewrite Hfail.
  repeat split.
Qed.

Lemma fetchRunHistory_failure_keeps_window_witness :
  runHistory (historyState (fetchRunHistory 2 5 (NetworkFailure "Failed to fetch")
                              initialState)) = [] /\
  totalJobs (historyState (fetchRunHistory 2 5 (NetworkFailure "Failed to fetch")
                             initialState)) = 0 /\
  error (jobState (fetchRunHistory 2 5 (NetworkFailure "Failed to fetch")
                     initialState)) = None /\
  isLoadingHistory (historyState (fetchRunHistory 2 5 (NetworkFailure "Failed to fetch")
                                    initialState)) = false.
Proof.
  pose proof (fetchRunHistory_failure_keeps_window 2 5
                (NetworkFailure "Failed to fetch") "Failed to fetch" initialState
                eq_refl) as H.
  cbv zeta in H. intuition.
Defined.

Lemma history_window_fetch_witness :
  page (historyState (historyEffect (NetworkFailure "Failed to fetch")
                        (handleRowsPerPageChange 10 thirdPage))) = 1 /\
  requests (browser (historyEffect (NetworkFailure "Failed to fetch")
                       (handleRowsPerPageChange 10 thirdPage))) = [GET_jobs 10 0].
Proof.
  exact (proj2 (proj2 (proj2 history_window_fetch))
           (NetworkFailure "Failed to fetch") thirdPage eq_refl eq_refl).
Defined.

(** * Stopping and releasing *)

Lemma State_eq (s1 s2 : State) :
  fileState s1 = fileState s2 ->
  jobState s1 = jobState s2 ->
  outputState s1 = outputState s2 ->
  historyState s1 = historyState s2 ->
  pollIntervalRef s1 = pollIntervalRef s2 ->
  browser s1 = browser s2 ->
  s1 = s2.
Proof. destruct s1, s2; simpl; congruence. Qed.

Lemma Browser_eq (b1 b2 : Browser) :
  intervals b1 = intervals b2 ->
  nextInterval b1 = nextInterval b2 ->
  objectUrls b1 = objectUrls b2 ->
  nextObjectUrl b1 = nextObjectUrl b2 ->
  requests b1 = requests b2 ->
  b1 = b2.
Proof. destruct b1, b2; simpl; congruence. Qed.

Lemma stopPolling_ref s : pollIntervalRef (stopPolling s) = None.
Proof. unfold stopPolling. now destruct (pollIntervalRef s) eqn:E. Qed.

Lemma stopPolling_idempotent s : stopPolling (stopPolling s) = stopPolling s.
Proof.
  unfold stopPolling at 1. now rewrite stopPolling_ref.
Qed.

Lemma revokeObjectURL_twice u s :
  revokeObjectURL u (revokeObjectURL u s) = revokeObjectURL u s.
Proof.
  apply State_eq; try reflexivity.
  apply Browser_eq; try reflexivity.
  simpl. set_solver.
Qed.

Lemma revokeObjectURL_not_live u s :
  u ∉ objectUrls (browser s) -> revokeObjectURL u s = s.
Proof.
  intros Hu. apply State_eq; try reflexivity.
  apply Browser_eq; try reflexivity.
  simpl. set_solver.
Qed.

Lemma cleanupBlobUrls_twice c s :
  cleanupBlobUrls c (cleanupBlobUrls c s) = cleanupBlobUrls c s.
Proof.
  unfold cleanupBlobUrls. destruct (cOutputBlobUrl c) as [u|]; [|reflexivity].
  unfold andThen.
  apply State_eq; try reflexivity.
  apply Browser_eq; try reflexivity.
  simpl. set_solver.
Qed.

(** C8: stopping the poller twice is stopping it once; releasing the output
    handle twice is releasing it once, both for the same callback and for
    the callback of the next render; releasing when the handle is [null],
    or when it was already revoked and cleared, changes nothing. *)
Theorem stop_release_idempotent :
  (forall s, stopPolling (stopPolling s) = stopPolling s) /\
  (forall c s, cleanupBlobUrls c (cleanupBlobUrls c s) = cleanupBlobUrls c s) /\
  (forall s, let s1 := cleanupBlobUrls (render s) s in
             cleanupBlobUrls (render s1) s1 = s1) /\
  (forall c s, cOutputBlobUrl c = None -> cleanupBlobUrls c s = s) /\
  (forall c u s, cOutputBlobUrl c = Some u ->
                 u ∉ objectUrls (browser s) ->
                 outputBlobUrl (outputState s) = None ->
                 cleanupBlobUrls c s = s) /\
  (forall u s, revokeObjectURL u (revokeObjectURL u s) = revokeObjectURL u s).
Proof.
  repeat apply conj.
  - apply stopPolling_idempotent.
  - apply cleanupBlobUrls_twice.
  - intros s s1. subst s1.
    assert (Hs : cOutputBlobUrl (render s) = outputBlobUrl (outputState s))
      by reflexivity.
    unfold cleanupBlobUrls at 2. rewrite Hs.
    destruct (outputBlobUrl (outputState s)) as [u|] eqn:E.
    + reflexivity.
    + unfold skip, cleanupBlobUrls, render. cbn [cOutputBlobUrl]. now rewrite E.
  - intros c s Hc. unfold cleanupBlobUrls. now rewrite Hc.
  - intros c u s Hc Hu Hcell. unfold cleanupBlobUrls, andThen. rewrite Hc.
    rewrite (revokeObjectURL_not_live u s Hu).
    apply State_eq; try reflexivity.
    destruct s as [? ? [ou obu ilo] ? ? ?]. simpl in *. now subst.
  - apply revokeObjectURL_twice.
Qed.

Lemma stop_release_idempotent_witness :
  cleanupBlobUrls {| cFile := None; cFileUrl := None; cOutputBlobUrl := None |}
                  initialState = initialState /\
  cleanupBlobUrls {| cFile := None; cFileUrl := None; cOutputBlobUrl := Some 7%nat |}
                  initialState = initialState.
Proof.
  destruct stop_release_idempotent as (_ & _ & _ & Hnull & Hrevoked & _).
  split.
  - now apply Hnull.
  - apply (Hrevoked _ 7%nat); [reflexivity | set_solver | reflexivity].
Defined.

(** * The poll loop *)

Lemma startPolling_timers id s :
  pollIntervalRef (startPolling id s) = Some (nextInterval (browser s)) /\
  intervals (browser (startPolling id s)) =
    {[nextInterval (browser s)]} ∪ intervals (browser s).
Proof. now split. Qed.

Lemma stopPolling_intervals s t :
  pollIntervalRef s = Some t ->
  intervals (browser (stopPolling s)) = intervals (browser s) ∖ {[t]}.
Proof. intros Href. unfold stopPolling. now rewrite Href. Qed.

(** What [stopPolling] leaves alone. *)
Lemma stopPolling_frame s :
  fileState (stopPolling s) = fileState s /\
  jobState (stopPolling s) = jobState s /\
  outputState (stopPolling s) = outputState s /\
  historyState (stopPolling s) = historyState s /\
  objectUrls (browser (stopPolling s)) = objectUrls (browser s) /\
  nextObjectUrl (browser (stopPolling s)) = nextObjectUrl (browser s) /\
  requests (browser (stopPolling s)) = requests (browser s).
Proof. unfold stopPolling. now destruct (pollIntervalRef s). Qed.

Lemma stopPolling_clears s t :
  pollIntervalRef s = Some t -> t ∉ intervals (browser (stopPolling s)).
Proof. intros Href. rewrite (stopPolling_intervals _ _ Href). set_solver. Qed.

(** Started while no interval is live, [startPolling] leaves exactly one
    interval live, the one the ref holds, and [stopPolling] then leaves
    none. *)
Lemma startPolling_from_idle id s :
  intervals (browser s) = ∅ ->
  intervals (browser (startPolling id s)) = {[nextInterval (browser s)]} /\
  size (intervals (browser (startPolling id s))) = 1%nat /\
  intervals (browser (stopPolling (startPolling id s))) = ∅.
Proof.
  destruct (startPolling_timers id s) as [Href Hlive].
  intros Hidle. rewrite Hidle in Hlive.
  assert (Hone : intervals (browser (startPolling id s)) = {[nextInterval (browser s)]})
    by (rewrite Hlive; set_solver).
  repeat apply conj.
  - exact Hone.
  - rewrite Hone. apply size_singleton.
  - rewrite (stopPolling_intervals _ _ Href), Hone. set_solver.
Qed.

(** [runJob] is its click part followed by its settled part. *)
Lemma runJob_around_await c o s :
  runJob c o s =
  match cFile c with
  | Some f => runJob_settled f o (runJob_click c s)
  | None => runJob_click c s
  end.
Proof. unfold runJob, runJob_click, runJob_settled. now destruct (cFile c). Qed.

(** C2 does not hold of the code: [startPolling] stores the new interval
    in the ref without clearing the one the ref holds, so a start while a
    loop is live leaves two loops running, and the first can no longer be
    stopped: [stopPolling], Reset and unmounting clear only the interval
    in the ref.  On the page this happens

    - when the upload is answered with a job that is already complete:
      the loop is live, Run is enabled, and a second Run starts a second
      loop;
    - when a tick fetches a status the page does not know: the page shows
      idle, the loop goes on, Run is enabled;
    - when two uploads are in flight: each starts a loop as it settles,
      although Run was clicked only while the ref held no interval. *)
Theorem second_start_leaves_first_loop_running :
  (pollIntervalRef polling = Some 1%positive /\
   intervals (browser polling) = {[1%positive]} /\
   intervals (browser (startPolling "job-2" polling)) = {[1%positive; 2%positive]} /\
   pollIntervalRef (startPolling "job-2" polling) = Some 2%positive /\
   intervals (browser (stopPolling (startPolling "job-2" polling))) = {[1%positive]}) /\
  (canRun fileChosen = true /\
   intervals (browser createdComplete) = {[1%positive]} /\
   canRun createdComplete = true /\
   intervals (browser ranAgain) = {[1%positive; 2%positive]} /\
   size (intervals (browser ranAgain)) = 2%nat /\
   pollIntervalRef ranAgain = Some 2%positive /\
   isRunning ranAgain = true /\
   intervals (browser (stopPolling ranAgain)) = {[1%positive]} /\
   intervals (browser (unmount (render ranAgain) ranAgain)) = {[1%positive]}) /\
  (intervals (browser createdQueued) = {[1%positive]} /\
   canRun createdQueued = false /\
   intervals (browser tickedUnknown) = {[1%positive]} /\
   status (jobState tickedUnknown) = idle /\
   canRun tickedUnknown = true /\
   intervals (browser ranAfterUnknown) = {[1%positive; 2%positive]} /\
   pollIntervalRef ranAfterUnknown = Some 2%positive) /\
  (canRun historyShown = true /\
   pollIntervalRef firstUploading = None /\
   canRun firstUploading = false /\
   completeSummary ∈ runHistory (historyState firstUploading) /\
   RunHistoryTable.canPlay completeSummary = true /\
   RunHistoryTable.isCurrentlyLoading firstUploading completeSummary = false /\
   isRunning playedMeanwhile = false /\
   canRun reselected = true /\
   pollIntervalRef secondUploading = None /\
   intervals (browser secondUploading) = ∅ /\
   intervals (browser firstSettled) = {[1%positive]} /\
   intervals (browser bothSettled) = {[1%positive; 2%positive]} /\
   pollIntervalRef bothSettled = Some 2%positive /\
   intervals (browser (stopPolling bothSettled)) = {[1%positive]}).
Proof.
  repeat match goal with |- _ /\ _ => split end;
    try (vm_compute; reflexivity);
    try (apply leibniz_equiv; vm_compute; reflexivity).
  vm_compute. set_solver.
Qed.

(** Fetching the output touches neither the timers nor the ref, and sends
    exactly one request. *)
Lemma fetchOutputAsBlob_frame c id o s :
  intervals (browser (fetchOutputAsBlob c id o s)) = intervals (browser s) /\
  pollIntervalRef (fetchOutputAsBlob c id o s) = pollIntervalRef s /\
  requests (browser (fetchOutputAsBlob c id o s)) =
    (requests (browser s) ++ [GET_output id])%list /\
  job (jobState (fetchOutputAsBlob c id o s)) = job (jobState s) /\
  status (jobState (fetchOutputAsBlob c id o s)) = status (jobState s) /\
  jobId (jobState (fetchOutputAsBlob c id o s)) = jobId (jobState s).
Proof.
  unfold fetchOutputAsBlob, andThen.
  destruct o as [message|res]; [now simpl|].
  destruct (negb (ok res)); [now simpl|].
  destruct (cOutputBlobUrl c); now simpl.
Qed.

(** A settled poll that fetched a snapshot: the snapshot is applied, then
    the branch on its status runs. *)
Lemma pollJobStatus_response_ok c id oJob oOut jobData s :
  settle (getJob id) oJob = Ok jobData ->
  pollJobStatus_response c id oJob oOut s =
  (if String.eqb (PitstopJob.status jobData) "COMPLETE" then
     setOutputUrl (Some (getOutputUrl id)) >>>
     setProgress 100%Q >>>
     stopPolling >>>
     fetchOutputAsBlob c id oOut
   else if String.eqb (PitstopJob.status jobData) "FAILED" then
     setError (Some "Job processing failed. Check logs for details.") >>>
     stopPolling
   else skip) (applySnapshot jobData s).
Proof. intros H. unfold pollJobStatus_response. now rewrite H. Qed.


(** Applying a snapshot leaves the browser, the ref and the other groups of
    state alone. *)
Lemma applySnapshot_frame jobData s :
  browser (applySnapshot jobData s) = browser s /\
  pollIntervalRef (applySnapshot jobData s) = pollIntervalRef s /\
  outputState (applySnapshot jobData s) = outputState s /\
  job (jobState (applySnapshot jobData s)) = Some jobData /\
  status (jobState (applySnapshot jobData s)) =
    mapBackendToUIStatus (Some (PitstopJob.status jobData)) (PitstopJob.stage jobData).
Proof.
  unfold applySnapshot, andThen.
  destruct (PitstopJob.progress jobData), (PitstopJob.logs jobData) as [[|]|];
    now simpl.
Qed.






(** The handle side of fetching the output. *)
Lemma fetchOutputAsBlob_handle c id o s :
  let s' := fetchOutputAsBlob c id o s in
  match o with
  | Responded res =>
      if ok res then
        outputBlobUrl (outputState s') = Some (nextObjectUrl (browser s)) /\
        nextObjectUrl (browser s') = S (nextObjectUrl (browser s)) /\
        nextObjectUrl (browser s) ∈ objectUrls (browser s')
      else
        outputBlobUrl (outputState s') = outputBlobUrl (outputState s) /\
        nextObjectUrl (browser s') = nextObjectUrl (browser s) /\
        objectUrls (browser s') = objectUrls (browser s) /\
        error (jobState s') = Some ("Failed to fetch output video: " ++ statusLine res)
  | NetworkFailure message =>
      outputBlobUrl (outputState s') = outputBlobUrl (outputState s) /\
      nextObjectUrl (browser s') = nextObjectUrl (browser s) /\
      objectUrls (browser s') = objectUrls (browser s) /\
      error (jobState s') = Some message
  end.
Proof.
  intros s'. subst s'. unfold fetchOutputAsBlob, andThen.
  destruct o as [message|res]; [now simpl|].
  destruct (ok res); cbn [negb]; [|now simpl].
  destruct (cOutputBlobUrl c); simpl; repeat split; set_solver.
Qed.

(** C4, as stated, fails twice over.  When the tick finds the job complete
    but the output endpoint answers 500, the bytes are requested once and
    no handle is made; the failure goes to the error field.  And when two
    polls of the loop are in flight and both find the job complete, the
    bytes are requested and wrapped twice for the one completion. *)
Lemma complete_tick_output_unavailable :
  (settle (getJob "job-1") (Responded (okReply (Payload completeJob))) = Ok completeJob /\
   status (jobState completeTickOutputUnavailable) = complete /\
   pollIntervalRef completeTickOutputUnavailable = None /\
   requests (browser completeTickOutputUnavailable) =
     [GET_job "job-1"; GET_job "job-1"; GET_output "job-1"] /\
   outputBlobUrl (outputState completeTickOutputUnavailable) = None /\
   objectUrls (browser completeTickOutputUnavailable) = ∅ /\
   nextObjectUrl (browser completeTickOutputUnavailable) =
     nextObjectUrl (browser polling) /\
   error (jobState completeTickOutputUnavailable) =
     Some "Failed to fetch output video: 500 Internal Server Error") /\
  (requests (browser polling) = [GET_job "job-1"] /\
   requests (browser overlappingPolls) =
     [GET_job "job-1"; GET_job "job-1"; GET_output "job-1"; GET_output "job-1"] /\
   nextObjectUrl (browser polling) = 0%nat /\
   nextObjectUrl (browser overlappingPolls) = 2%nat /\
   intervals (browser overlappingPolls) = ∅).
Proof. vm_compute. repeat split. Qed.

(** C4, amended: when a poll tick returns a snapshot with status
    [COMPLETE], the loop the ref holds is stopped: the ref is emptied and
    its interval cleared, so that no interval is live afterwards, and no
    later tick fetches the output again, if the ref's was the only one.
    The tick requests the output bytes exactly once; the page shows the
    complete snapshot and its stepper stands at 5.  If the output request
    succeeds the bytes are wrapped in exactly one new handle, which becomes
    the output handle; if it fails no handle is made and the error field
    carries the failure. *)
Theorem complete_tick c id oJob oOut jobData s :
  settle (getJob id) oJob = Ok jobData ->
  PitstopJob.status jobData = "COMPLETE" ->
  let s' := pollJobStatus c id oJob oOut s in
  (pollIntervalRef s' = None /\
   intervals (browser s') = intervals (browser (stopPolling s)) /\
   (forall t, pollIntervalRef s = Some t -> t ∉ intervals (browser s')) /\
   (oneLoop s -> intervals (browser s') = ∅)) /\
  requests (browser s') = (requests (browser s) ++ [GET_job id; GET_output id])%list /\
  (job (jobState s') = Some jobData /\
   status (jobState s') = complete /\
   activeStep s' = 5) /\
  match oOut with
  | Responded res =>
      if ok res then
        outputBlobUrl (outputState s') = Some (nextObjectUrl (browser s)) /\
        nextObjectUrl (browser s') = S (nextObjectUrl (browser s)) /\
        nextObjectUrl (browser s) ∈ objectUrls (browser s')
      else
        outputBlobUrl (outputState s') = outputBlobUrl (outputState s) /\
        nextObjectUrl (browser s') = nextObjectUrl (browser s) /\
        objectUrls (browser s') = objectUrls (browser s) /\
        error (jobState s') = Some ("Failed to fetch output video: " ++ statusLine res)
  | NetworkFailure message =>
      outputBlobUrl (outputState s') = outputBlobUrl (outputState s) /\
      nextObjectUrl (browser s') = nextObjectUrl (browser s) /\
      objectUrls (browser s') = objectUrls (browser s) /\
      error (jobState s') = Some message
  end.
Proof.
  intros Hsettle Hstatus s'.
  set (s0 := pollJobStatus_request id s).
  set (s1 := applySnapshot jobData s0).
  set (s2 := stopPolling (setProgress 100%Q (setOutputUrl (Some (getOutputUrl id)) s1))).
  assert (Hs' : s' = fetchOutputAsBlob c id oOut s2).
  { subst s' s2 s1 s0. unfold pollJobStatus. unfold andThen at 1.
    rewrite (pollJobStatus_response_ok _ _ _ _ _ _ Hsettle), Hstatus.
    reflexivity. }
  clearbody s'. subst s'.
  destruct (applySnapshot_frame jobData s0) as (Hb & Hr & Ho & Hjob & Hst).
  fold s1 in Hb, Hr, Ho, Hjob, Hst.
  rewrite Hstatus in *.
  change (mapBackendToUIStatus (Some "COMPLETE") (PitstopJob.stage jobData))
    with complete in Hst.
  destruct (stopPolling_frame (setProgress 100%Q (setOutputUrl (Some (getOutputUrl id)) s1)))
    as (_ & Hj2 & Ho2 & _ & Hu2 & Hn2 & Hq2).
  fold s2 in Hj2, Ho2, Hu2, Hn2, Hq2.
  cbn [jobState outputState browser setProgress setOutputUrl onJob onOutput] in
    Hj2, Ho2, Hu2, Hn2, Hq2.
  destruct (fetchOutputAsBlob_frame c id oOut s2) as (Hi & Hp & Hq & Hjb & Hsb & _).
  pose proof (fetchOutputAsBlob_handle c id oOut s2) as Hh. cbv zeta in Hh.
  assert (Hreq : requests (browser s2) = (requests (browser s) ++ [GET_job id])%list)
    by (rewrite Hq2, Hb; reflexivity).
  assert (Hnext : nextObjectUrl (browser s2) = nextObjectUrl (browser s))
    by (rewrite Hn2, Hb; reflexivity).
  assert (Hurls : objectUrls (browser s2) = objectUrls (browser s))
    by (rewrite Hu2, Hb; reflexivity).
  assert (Hcell : outputBlobUrl (outputState s2) = outputBlobUrl (outputState s))
    by (rewrite Ho2; cbn [outputBlobUrl]; now rewrite Ho).
  assert (Hint : intervals (browser s2) = intervals (browser (stopPolling s))).
  { subst s2. unfold stopPolling.
    cbn [pollIntervalRef setProgress setOutputUrl onJob onOutput].
    rewrite Hr. change (pollIntervalRef s0) with (pollIntervalRef s).
    destruct (pollIntervalRef s); simpl; now rewrite Hb. }
  assert (Hst' : status (jobState (fetchOutputAsBlob c id oOut s2)) = complete).
  { rewrite Hsb, Hj2. cbn [status]. exact Hst. }
  split; [repeat apply conj|split; [|split; [repeat apply conj|]]].
  - rewrite Hp. apply stopPolling_ref.
  - now rewrite Hi.
  - intros t Ht. rewrite Hi, Hint. now apply stopPolling_clears.
  - intros Hone. rewrite Hi, Hint. unfold stopPolling.
    destruct (pollIntervalRef s) as [t|] eqn:Href.
    + simpl. apply set_eq. intros x. specialize (Hone x). rewrite Href in Hone.
      set_solver.
    + apply set_eq. intros x. specialize (Hone x). rewrite Href in Hone.
      set_solver.
  - rewrite Hq, Hreq, <- app_assoc. reflexivity.
  - rewrite Hjb, Hj2. cbn [job]. exact Hjob.
  - exact Hst'.
  - unfold activeStep. now rewrite Hst'.
  - rewrite Hnext, Hurls, Hcell in Hh. exact Hh.
Qed.

Lemma complete_tick_witness :
  intervals (browser (pollJobStatus (render polling) "job-1"
                        (Responded (okReply (Payload completeJob)))
                        (Responded (okReply outputVideo)) polling)) = ∅ /\
  activeStep (pollJobStatus (render polling) "job-1"
                (Responded (okReply (Payload completeJob)))
                (Responded (okReply outputVideo)) polling) = 5 /\
  outputBlobUrl (outputState (pollJobStatus (render polling) "job-1"
                     (Responded (okReply (Payload completeJob)))
                     (Responded (okReply outputVideo)) polling)) = Some 0%nat.
Proof.
  pose proof (complete_tick (render polling) "job-1"
                (Responded (okReply (Payload completeJob)))
                (Responded (okReply outputVideo)) completeJob polling
                eq_refl eq_refl) as H.
  cbv zeta in H. cbn [ok okReply code] in H.
  destruct H as ((_ & _ & _ & Hone) & _ & (_ & _ & Hstep) & Hout).
  split; [|split; [exact Hstep | exact (proj1 Hout)]].
  apply Hone. intros t Ht.
  change (intervals (browser polling)) with ({[1%positive]} ∪ ∅ : gset positive) in Ht.
  assert (t = 1%positive) as -> by set_solver. reflexivity.
Defined.

(** * Loading a job from the history *)

(** The guard of [handleLoadJob]. *)
Lemma handleLoadJob_guard_spec (historyJob : PitstopJobListItem.t) :
  negb (String.eqb (PitstopJobListItem.status historyJob) "COMPLETE")
  || negb (PitstopJobListItem.has_output historyJob) = false <->
  PitstopJobListItem.status historyJob = "COMPLETE" /\
  PitstopJobListItem.has_output historyJob = true.
Proof.
  rewrite orb_false_iff, !negb_false_iff, String.eqb_eq. reflexivity.
Qed.

Lemma handleLoadJob_skipped c (historyJob : PitstopJobListItem.t) oJob oOut s :
  PitstopJobListItem.status historyJob <> "COMPLETE" \/
  PitstopJobListItem.has_output historyJob = false ->
  handleLoadJob c historyJob oJob oOut s = s.
Proof.
  intros Hguard. unfold handleLoadJob.
  destruct (negb (String.eqb (PitstopJobListItem.status historyJob) "COMPLETE")
            || negb (PitstopJobListItem.has_output historyJob)) eqn:E;
    [reflexivity|].
  apply handleLoadJob_guard_spec in E. destruct E as [E1 E2].
  destruct Hguard; congruence.
Qed.

Lemma handleLoadJob_loaded c (historyJob : PitstopJobListItem.t) oJob oOut fullJob s :
  PitstopJobListItem.status historyJob = "COMPLETE" ->
  PitstopJobListItem.has_output historyJob = true ->
  settle (getJob (PitstopJobListItem.job_id historyJob)) oJob = Ok fullJob ->
  handleLoadJob c historyJob oJob oOut s =
  (setLoadingJobId (Some (PitstopJobListItem.job_id historyJob)) >>>
   stopPolling >>>
   cleanupBlobUrls c >>>
   fetch (GET_job (PitstopJobListItem.job_id historyJob)) >>>
   showLoadedJob (PitstopJobListItem.job_id historyJob) fullJob >>>
   fetchOutputAsBlob c (PitstopJobListItem.job_id historyJob) oOut >>>
   setLoadingJobId None) s.
Proof.
  intros Hc Ho Hsettle. unfold handleLoadJob.
  rewrite (proj2 (handleLoadJob_guard_spec historyJob) (conj Hc Ho)).
  cbv zeta. unfold andThen at 1 2 3 4. rewrite Hsettle. reflexivity.
Qed.

Lemma handleLoadJob_not_loaded c (historyJob : PitstopJobListItem.t) oJob oOut message s :
  PitstopJobListItem.status historyJob = "COMPLETE" ->
  PitstopJobListItem.has_output historyJob = true ->
  settle (getJob (PitstopJobListItem.job_id historyJob)) oJob = Err message ->
  handleLoadJob c historyJob oJob oOut s =
  (setLoadingJobId (Some (PitstopJobListItem.job_id historyJob)) >>>
   stopPolling >>>
   cleanupBlobUrls c >>>
   fetch (GET_job (PitstopJobListItem.job_id historyJob)) >>>
   setError (Some message) >>>
   setLoadingJobId None) s.
Proof.
  intros Hc Ho Hsettle. unfold handleLoadJob.
  rewrite (proj2 (handleLoadJob_guard_spec historyJob) (conj Hc Ho)).
  cbv zeta. unfold andThen at 1 2 3 4. rewrite Hsettle. reflexivity.
Qed.

(** Up to the request for the full job: the poller is stopped, the old
    output handle released, one request sent. *)
Lemma handleLoadJob_prefix c id s :
  let s1 := (setLoadingJobId (Some id) >>> stopPolling >>> cleanupBlobUrls c >>>
             fetch (GET_job id)) s in
  requests (browser s1) = (requests (browser s) ++ [GET_job id])%list /\
  nextObjectUrl (browser s1) = nextObjectUrl (browser s) /\
  pollIntervalRef s1 = None.
Proof.
  unfold andThen, cleanupBlobUrls, stopPolling, andThen.
  cbn [pollIntervalRef setLoadingJobId onHistory].
  destruct (cOutputBlobUrl c), (pollIntervalRef s) eqn:E; simpl; rewrite ?E;
    now repeat split.
Qed.

(** C5: for a summary that is not [COMPLETE] or has no output,
    [handleLoadJob] returns the page as it was: no request is sent, no
    state changes, no error is set.  For a [COMPLETE] summary with output
    it requests the full job; when that arrives, the job shown is the
    loaded one, the UI status (and with it the step) is the projection of
    its status and stage, the output is requested, and a successful output
    fetch installs a new handle. *)
Theorem handleLoadJob_spec c (historyJob : PitstopJobListItem.t) oJob oOut s :
  let id := PitstopJobListItem.job_id historyJob in
  let s' := handleLoadJob c historyJob oJob oOut s in
  (PitstopJobListItem.status historyJob <> "COMPLETE" \/
   PitstopJobListItem.has_output historyJob = false ->
   s' = s) /\
  (requests (browser s') <> requests (browser s) ->
   PitstopJobListItem.status historyJob = "COMPLETE" /\
   PitstopJobListItem.has_output historyJob = true) /\
  (PitstopJobListItem.status historyJob = "COMPLETE" ->
   PitstopJobListItem.has_output historyJob = true ->
   (exists rest, requests (browser s') = (requests (browser s) ++ GET_job id :: rest)%list) /\
   forall fullJob,
     settle (getJob id) oJob = Ok fullJob ->
     requests (browser s') = (requests (browser s) ++ [GET_job id; GET_output id])%list /\
     jobId (jobState s') = Some id /\
     job (jobState s') = Some fullJob /\
     status (jobState s') =
       mapBackendToUIStatus (Some (PitstopJob.status fullJob)) (PitstopJob.stage fullJob) /\
     pollIntervalRef s' = None /\
     loadingJobId (historyState s') = None /\
     forall res, oOut = Responded res -> ok res = true ->
       outputBlobUrl (outputState s') = Some (nextObjectUrl (browser s)) /\
       nextObjectUrl (browser s) ∈ objectUrls (browser s')).
Proof.
  intros id s'. subst id.
  assert (Hskip : PitstopJobListItem.status historyJob <> "COMPLETE" \/
                  PitstopJobListItem.has_output historyJob = false -> s' = s)
    by apply handleLoadJob_skipped.
  split; [exact Hskip|]. split.
  - intros Hsent.
    destruct (String.eqb (PitstopJobListItem.status historyJob) "COMPLETE") eqn:E1.
    + apply String.eqb_eq in E1.
      destruct (PitstopJobListItem.has_output historyJob) eqn:E2; [now split|].
      exfalso. apply Hsent. now rewrite Hskip by now right.
    + apply String.eqb_neq in E1.
      exfalso. apply Hsent. now rewrite Hskip by now left.
  - intros Hc Ho.
    set (id := PitstopJobListItem.job_id historyJob) in *.
    destruct (handleLoadJob_prefix c id s) as (Hreq1 & Hnext1 & Href1).
    cbv zeta in Hreq1, Hnext1, Href1.
    destruct (settle (getJob id) oJob) as [fullJob|message] eqn:Hsettle.
    + assert (Hs' : s' =
                (setLoadingJobId (Some id) >>> stopPolling >>> cleanupBlobUrls c >>>
                 fetch (GET_job id) >>> showLoadedJob id fullJob >>>
                 fetchOutputAsBlob c id oOut >>> setLoadingJobId None) s)
        by now apply handleLoadJob_loaded.
      clearbody s'. subst s'. unfold andThen in *.
      set (s1 := fetch (GET_job id) _) in *. clearbody s1.
      set (s3 := showLoadedJob id fullJob s1).
      assert (Hreq3 : requests (browser s3) = (requests (browser s) ++ [GET_job id])%list)
        by exact Hreq1.
      assert (Hnext3 : nextObjectUrl (browser s3) = nextObjectUrl (browser s))
        by exact Hnext1.
      assert (Hjob3 : job (jobState s3) = Some fullJob) by reflexivity.
      assert (Hid3 : jobId (jobState s3) = Some id) by reflexivity.
      assert (Hst3 : status (jobState s3) =
                     mapBackendToUIStatus (Some (PitstopJob.status fullJob))
                                          (PitstopJob.stage fullJob)) by reflexivity.
      assert (Href3 : pollIntervalRef s3 = None) by exact Href1.
      clearbody s3.
      destruct (fetchOutputAsBlob_frame c id oOut s3)
        as (Hi & Hp & Hq & Hjb & Hsb & Hjid).
      pose proof (fetchOutputAsBlob_handle c id oOut s3) as Hh. cbv zeta in Hh.
      cbn [browser requests jobState historyState pollIntervalRef loadingJobId
           outputState setLoadingJobId onHistory].
      set (s4 := fetchOutputAsBlob c id oOut s3) in *. clearbody s4.
      assert (Hall : requests (browser s4) =
                     (requests (browser s) ++ [GET_job id; GET_output id])%list)
        by (rewrite Hq, Hreq3, <- app_assoc; reflexivity).
      split.
      * exists [GET_output id]. exact Hall.
      * intros fullJob' [= <-].
        split; [exact Hall|].
        split; [now rewrite Hjid|].
        split; [now rewrite Hjb|]. split; [now rewrite Hsb|].
        split; [now rewrite Hp|]. split; [reflexivity|].
        intros res -> Hok. rewrite Hok, Hnext3 in Hh. tauto.
    + assert (Hs' : s' =
                (setLoadingJobId (Some id) >>> stopPolling >>> cleanupBlobUrls c >>>
                 fetch (GET_job id) >>> setError (Some message) >>>
                 setLoadingJobId None) s)
        by now apply handleLoadJob_not_loaded.
      clearbody s'. subst s'. unfold andThen in *.
      split.
      * exists []. cbn [browser requests setLoadingJobId setError onHistory onJob].
        exact Hreq1.
      * intros fullJob [=].
Qed.

Lemma handleLoadJob_spec_witness :
  handleLoadJob (render polling) processingSummary
    (Responded (okReply (Payload completeJob))) (Responded (okReply outputVideo))
    polling = polling /\
  status (jobState (handleLoadJob (render polling) completeSummary
    (Responded (okReply (Payload completeJob))) (Responded (okReply outputVideo))
    polling)) = complete.
Proof.
  split.
  - apply (proj1 (handleLoadJob_spec (render polling) processingSummary
                    (Responded (okReply (Payload completeJob)))
                    (Responded (okReply outputVideo)) polling)).
    left. discriminate.
  - pose proof (proj2 (proj2 (handleLoadJob_spec (render polling) completeSummary
                    (Responded (okReply (Payload completeJob)))
                    (Responded (okReply outputVideo)) polling)) eq_refl eq_refl) as H.
    destruct H as [_ H]. destruct (H completeJob eq_refl) as (_ & _ & _ & Hst & _).
    exact Hst.
Defined.

(** * The stepper of the progress card *)

Lemma strictEq_spec (x : option string) (lit : string) :
  x === lit = true <-> x = Some lit.
Proof.
  destruct x as [s|]; simpl.
  - rewrite String.eqb_eq. split; congruence.
  - split; discriminate.
Qed.

Lemma getActiveStep_projection status stage :
  JobProgress.getActiveStep (mapBackendToUIStatus status stage) stage =
  getStepFromBackend status stage.
Proof.
  destruct status as [st|]; [|reflexivity].
  unfold mapBackendToUIStatus, getStepFromBackend.
  destruct (falsy st); [reflexivity|].
  destruct (String.eqb st "QUEUED"); [reflexivity|].
  destruct (String.eqb st "PROCESSING").
  - destruct (stage === "RENDERING") eqn:Er.
    + apply strictEq_spec in Er. subst stage. reflexivity.
    + simpl. now destruct (_ || _).
  - destruct (String.eqb st "COMPLETE"); [reflexivity|].
    now destruct (String.eqb st "FAILED").
Qed.

(** X1: the stepper of the progress card, fed with the UI status the
    projection gives, stands where [getStepFromBackend] says, for every
    status and stage. *)
Theorem getActiveStep_agrees_with_backend status stage :
  JobProgress.getActiveStep (mapBackendToUIStatus status stage) stage =
  getStepFromBackend status stage.
Proof. apply getActiveStep_projection. Qed.

(** X2: a completed job marks every one of the five steps completed, a
    failed or idle one marks none, and while the job runs the steps marked
    are exactly those before the active one. *)
Theorem stepper_completed_steps stage (index : Z) :
  0 <= index < Z.of_nat (length JobProgress.STEPS) ->
  JobProgress.completed (JobProgress.getActiveStep complete stage) index = true /\
  JobProgress.completed (JobProgress.getActiveStep failed stage) index = false /\
  JobProgress.completed (JobProgress.getActiveStep idle stage) index = false /\
  (forall status, JobProgress.isRunning status = true ->
     0 <= JobProgress.getActiveStep status stage < 4 /\
     (JobProgress.completed (JobProgress.getActiveStep status stage) index = true <->
      index < JobProgress.getActiveStep status stage)).
Proof.
  intros Hindex. change (Z.of_nat (length JobProgress.STEPS)) with 5 in Hindex.
  unfold JobProgress.completed.
  split; [apply Z.ltb_lt; simpl; lia|].
  split; [apply Z.ltb_ge; simpl; lia|].
  split; [apply Z.ltb_ge; simpl; lia|].
  intros status Hrun. split; [|apply Z.ltb_lt].
  destruct status; try discriminate; simpl;
    try destruct (stage === "UPLOAD"); lia.
Qed.

Lemma stepper_completed_steps_witness :
  JobProgress.completed (JobProgress.getActiveStep complete (Some "COMPLETE")) 4 = true /\
  JobProgress.completed (JobProgress.getActiveStep failed (Some "FAILED")) 4 = false.
Proof.
  destruct (stepper_completed_steps (Some "COMPLETE") 4) as (H & _);
    [simpl; lia|].
  destruct (stepper_completed_steps (Some "FAILED") 4) as (_ & H' & _);
    [simpl; lia|].
  now split.
Defined.

(** X3: the progress label is empty exactly for the statuses that are not
    running, which are the ones for which the card hides it. *)
Theorem getProgressLabel_empty_iff status stage :
  JobProgress.getProgressLabel status stage = "" <->
  JobProgress.isRunning status = false.
Proof.
  destruct status; simpl;
    repeat match goal with
           | |- context [if ?b then _ else _] => destruct b
           end;
    split; intros H; try reflexivity; try discriminate.
Qed.

(** A poll that fetched a snapshot shows it, whatever branch it took. *)
Lemma pollJobStatus_shows_snapshot c id oJob oOut jobData s :
  settle (getJob id) oJob = Ok jobData ->
  job (jobState (pollJobStatus c id oJob oOut s)) = Some jobData /\
  status (jobState (pollJobStatus c id oJob oOut s)) =
    mapBackendToUIStatus (Some (PitstopJob.status jobData)) (PitstopJob.stage jobData).
Proof.
  intros Hsettle.
  change (pollJobStatus c id oJob oOut s)
    with (pollJobStatus_response c id oJob oOut (pollJobStatus_request id s)).
  rewrite (pollJobStatus_response_ok _ _ _ _ _ _ Hsettle).
  destruct (applySnapshot_frame jobData (pollJobStatus_request id s))
    as (_ & _ & _ & Hjob & Hst).
  set (s1 := applySnapshot jobData (pollJobStatus_request id s)) in *.
  clearbody s1.
  destruct (String.eqb (PitstopJob.status jobData) "COMPLETE");
    [|destruct (String.eqb (PitstopJob.status jobData) "FAILED")];
    unfold andThen, skip.
  - destruct (fetchOutputAsBlob_frame c id oOut
                (stopPolling (setProgress 100%Q
                   (setOutputUrl (Some (getOutputUrl id)) s1))))
      as (_ & _ & _ & Hj & Hs & _).
    rewrite Hj, Hs.
    destruct (stopPolling_frame (setProgress 100%Q
                (setOutputUrl (Some (getOutputUrl id)) s1))) as (_ & -> & _).
    now split.
  - destruct (stopPolling_frame
                (setError (Some "Job processing failed. Check logs for details.") s1))
      as (_ & -> & _).
    now split.
  - now split.
Qed.

(** X4: after every poll tick that fetched a snapshot, the step the
    progress card shows is [getStepFromBackend] of that snapshot's status
    and stage. *)
Theorem tick_shows_backend_step c id oJob oOut jobData s :
  settle (getJob id) oJob = Ok jobData ->
  activeStep (pollJobStatus c id oJob oOut s) =
  getStepFromBackend (Some (PitstopJob.status jobData)) (PitstopJob.stage jobData).
Proof.
  intros Hsettle.
  destruct (pollJobStatus_shows_snapshot c id oJob oOut jobData s Hsettle)
    as [Hjob Hst].
  unfold activeStep. rewrite Hjob, Hst.
  apply getActiveStep_projection.
Qed.

Lemma tick_shows_backend_step_witness :
  activeStep (pollJobStatus (render polling) "job-1"
                (Responded (okReply (Payload completeJob)))
                (Responded (okReply outputVideo)) polling) = 5.
Proof.
  exact (tick_shows_backend_step (render polling) "job-1"
           (Responded (okReply (Payload completeJob)))
           (Responded (okReply outputVideo)) completeJob polling eq_refl).
Defined.

(** * Running a job *)

(** X6: the projection of a backend status is one of the running UI
    statuses exactly when the backend status is [QUEUED] or [PROCESSING];
    every other status, known or not, leaves the page not running. *)
Theorem running_iff_backend_active status stage :
  JobProgress.isRunning (mapBackendToUIStatus status stage) = true <->
  status = Some "QUEUED" \/ status = Some "PROCESSING".
Proof.
  destruct status as [st|]; simpl; [|split; [done|intros [|]; done]].
  unfold falsy.
  destruct (String.eqb_spec st "") as [->|_];
    [split; [done|intros [|]; done]|].
  destruct (String.eqb_spec st "QUEUED") as [->|Hq]; [split; [auto|done]|].
  destruct (String.eqb_spec st "PROCESSING") as [->|Hp].
  { destruct (stage === "RENDERING"); split; auto. }
  assert (Hno : ~ (Some st = Some "QUEUED" \/ Some st = Some "PROCESSING"))
    by (intros [[=]|[=]]; done).
  destruct (String.eqb st "COMPLETE"); [split; [done|tauto]|].
  destruct (String.eqb st "FAILED"); split; (done || tauto).
Qed.

(** X7: [runJob] without a file only sets the error; when the submission
    fails, the status is [failed], the error is the message of the
    failure, the log ends with it, one request was sent, and no poller was
    started. *)
Theorem runJob_not_created c o s :
  (cFile c = None ->
   runJob c o s = setError (Some "Please select a video file first.") s) /\
  (forall f message,
     cFile c = Some f ->
     settle (createJob f None) o = Err message ->
     let s' := runJob c o s in
     status (jobState s') = failed /\
     error (jobState s') = Some message /\
     logs (jobState s') =
       ["[INFO] Uploading video to server..."; "[ERROR] " ++ message] /\
     jobId (jobState s') = jobId (jobState s) /\
     requests (browser s') = (requests (browser s) ++ [POST_jobs f None None None])%list /\
     intervals (browser s') = intervals (browser s) /\
     pollIntervalRef s' = pollIntervalRef s).
Proof.
  split.
  - intros Hfile. unfold runJob. now rewrite Hfile.
  - intros f message Hfile Hsettle s'. subst s'.
    unfold runJob. rewrite Hfile. unfold andThen. rewrite Hsettle.
    unfold cleanupBlobUrls, andThen, skip. now destruct (cOutputBlobUrl c).
Qed.

Lemma runJob_not_created_witness :
  status (jobState (runJob (render fileChosen) (Responded emptyDetailReply) fileChosen))
  = failed /\
  error (jobState (runJob (render fileChosen) (Responded emptyDetailReply) fileChosen))
  = Some "Upload failed: 400 Bad Request".
Proof.
  destruct (proj2 (runJob_not_created (render fileChosen)
                     (Responded emptyDetailReply) fileChosen)
              sampleFile "Upload failed: 400 Bad Request" eq_refl eq_refl)
    as (H1 & H2 & _).
  now split.
Defined.

(** X8: when the submission succeeds, the page holds the created job, its
    id and the projection of its status and stage, the log names the job,
    the submission and the first poll are the two requests sent, one new
    interval is live and held by the ref, and while the backend status is
    [QUEUED] or [PROCESSING] the Run button is disabled. *)
Theorem runJob_created c o f response s :
  cFile c = Some f ->
  settle (createJob f None) o = Ok response ->
  let s' := runJob c o s in
  let id := PitstopJob.job_id response in
  jobId (jobState s') = Some id /\
  job (jobState s') = Some response /\
  status (jobState s') =
    mapBackendToUIStatus (Some (PitstopJob.status response)) (PitstopJob.stage response) /\
  error (jobState s') = None /\
  logs (jobState s') =
    ["[INFO] Uploading video to server..."; "[INFO] Job created: " ++ id] /\
  requests (browser s') =
    (requests (browser s) ++ [POST_jobs f None None None; GET_job id])%list /\
  pollIntervalRef s' = Some (nextInterval (browser s)) /\
  intervals (browser s') = {[nextInterval (browser s)]} ∪ intervals (browser s) /\
  (PitstopJob.status response = "QUEUED" \/ PitstopJob.status response = "PROCESSING" ->
   canRun s' = false).
Proof.
  intros Hfile Hsettle s' id. subst s' id.
  unfold runJob. rewrite Hfile. unfold andThen. rewrite Hsettle.
  unfold cleanupBlobUrls, andThen, skip, appendLog, startPolling, andThen, canRun, isRunning.
  destruct (cOutputBlobUrl c); simpl; rewrite <- ?app_assoc;
    (repeat split; try done; intros [-> | ->]; simpl;
     try destruct (PitstopJob.stage response === "RENDERING");
     apply andb_false_iff; right; reflexivity).
Qed.

Lemma runJob_created_witness :
  status (jobState (runJob (render fileChosen)
                      (Responded (okReply (Payload queuedJob))) fileChosen)) = queued /\
  canRun (runJob (render fileChosen)
            (Responded (okReply (Payload queuedJob))) fileChosen) = false.
Proof.
  destruct (runJob_created (render fileChosen)
              (Responded (okReply (Payload queuedJob))) sampleFile queuedJob
              fileChosen eq_refl eq_refl)
    as (_ & _ & Hst & _ & _ & _ & _ & _ & Hgate).
  split; [exact Hst | apply Hgate; now left].
Defined.

(** * Reset and file selection *)

Ltac page_unfold :=
  unfold dispatch, RunHistoryTable.playClick, RunHistoryTable.handlePageChange,
    handlePageChange, handleRowsPerPageChange, historyEffect, fetchRunHistory,
    handleLoadJob, handleReset, runJob, handleFileSelect, startPolling,
    pollJobStatus, pollJobStatus_request, pollJobStatus_response,
    fetchOutputAsBlob, cleanupBlobUrls, stopPolling, revokeIfSet, createObjectURL,
    setInterval, andThen, skip in *.

(** X9: Reset puts the file and job state back to those of the first
    render, clears both output URLs and the ref, sends nothing and leaves
    the history alone; a second Reset changes nothing.  If every live
    interval was the one in the ref, none is live afterwards; if every
    live object URL was held by the page, none is live afterwards. *)
Theorem handleReset_restores_initial s :
  let s' := dispatch ResetClicked s in
  fileState s' = fileState initialState /\
  jobState s' = jobState initialState /\
  outputUrl (outputState s') = None /\
  outputBlobUrl (outputState s') = None /\
  pollIntervalRef s' = None /\
  historyState s' = historyState s /\
  requests (browser s') = requests (browser s) /\
  dispatch ResetClicked s' = s' /\
  (oneLoop s -> intervals (browser s') = ∅) /\
  (handlesOwned s -> objectUrls (browser s') = ∅).
Proof.
  intros s'. subst s'. unfold oneLoop, handlesOwned.
  destruct s as [[f [fu|]] j [ou [obu|] ilo] h [t|] b];
    page_unfold; cbn; repeat split; try done; intros H;
    apply set_eq; intros x; specialize (H x); set_solver.
Qed.

Lemma handleReset_restores_initial_witness :
  intervals (browser (dispatch ResetClicked polling)) = ∅ /\
  objectUrls (browser (dispatch ResetClicked fileChosen)) = ∅.
Proof.
  split.
  - apply (handleReset_restores_initial polling).
    intros t Ht.
    change (intervals (browser polling)) with ({[1%positive]} ∪ ∅ : gset positive) in Ht.
    assert (t = 1%positive) as -> by set_solver. reflexivity.
  - apply (handleReset_restores_initial fileChosen).
    intros u Hu. left.
    change (objectUrls (browser fileChosen)) with ({[0%nat]} ∪ ∅ : gset nat) in Hu.
    assert (u = 0%nat) as -> by set_solver. reflexivity.
Defined.

(** X10: selecting a file stops the poller the ref holds: that interval is
    cleared, no other interval is touched and the ref is emptied, so that
    no interval is live afterwards if the ref's was the only one.  It also
    clears the job and both output URLs and sends nothing; with a file it
    mints exactly one object URL, which becomes the input URL, and without
    one the input URL is cleared.  If every live object URL was held by the
    page, the new input URL is the only one live afterwards (none, when no
    file is given). *)
Theorem handleFileSelect_one_input_handle selectedFile s :
  let s' := dispatch (FileSelected selectedFile) s in
  file (fileState s') = selectedFile /\
  jobState s' = jobState initialState /\
  outputUrl (outputState s') = None /\
  outputBlobUrl (outputState s') = None /\
  pollIntervalRef s' = None /\
  intervals (browser s') =
    match pollIntervalRef s with
    | Some t => intervals (browser s) ∖ {[t]}
    | None => intervals (browser s)
    end /\
  (oneLoop s -> intervals (browser s') = ∅) /\
  requests (browser s') = requests (browser s) /\
  match selectedFile with
  | Some _ =>
      fileUrl (fileState s') = Some (nextObjectUrl (browser s)) /\
      nextObjectUrl (browser s') = S (nextObjectUrl (browser s)) /\
      (handlesOwned s -> objectUrls (browser s') = {[nextObjectUrl (browser s)]})
  | None =>
      fileUrl (fileState s') = None /\
      nextObjectUrl (browser s') = nextObjectUrl (browser s) /\
      (handlesOwned s -> objectUrls (browser s') = ∅)
  end.
Proof.
  intros s'. subst s'. unfold handlesOwned, oneLoop.
  destruct selectedFile, s as [[f0 [fu|]] j [ou [obu|] ilo] h [t|] b];
    page_unfold; cbn; repeat split; try done; intros H;
    apply set_eq; intros x; specialize (H x); set_solver.
Qed.

Lemma handleFileSelect_one_input_handle_witness :
  intervals (browser (dispatch (FileSelected (Some sampleFile)) polling)) = ∅ /\
  objectUrls (browser (dispatch (FileSelected (Some sampleFile)) fileChosen)) =
  {[1%nat]}.
Proof.
  split.
  - apply (handleFileSelect_one_input_handle (Some sampleFile) polling).
    intros t Ht.
    change (intervals (browser polling)) with ({[1%positive]} ∪ ∅ : gset positive) in Ht.
    assert (t = 1%positive) as -> by set_solver. reflexivity.
  - apply (handleFileSelect_one_input_handle (Some sampleFile) fileChosen).
    intros u Hu. left.
    change (objectUrls (browser fileChosen)) with ({[0%nat]} ∪ ∅ : gset nat) in Hu.
    assert (u = 0%nat) as -> by set_solver. reflexivity.
Defined.

(** * Unmounting *)

(** X20: when the page unmounts from a state in which every live
    interval is the one in the ref and every live object URL is held by
    the page, no interval and no object URL stays live. *)
Theorem unmount_releases_everything s :
  oneLoop s -> handlesOwned s ->
  intervals (browser (unmount (render s) s)) = ∅ /\
  objectUrls (browser (unmount (render s) s)) = ∅ /\
  pollIntervalRef (unmount (render s) s) = None.
Proof.
  unfold oneLoop, handlesOwned, unmount, andThen, stopPolling, revokeIfSet, skip.
  intros Hone Hown. cbn [render cFile cFileUrl cOutputBlobUrl].
  repeat case_match; simplify_eq/=; repeat split; try done;
    apply set_eq; intros x;
    first [specialize (Hone x) | specialize (Hown x)]; set_solver.
Qed.

Lemma unmount_releases_everything_witness :
  intervals (browser (unmount (render polling) polling)) = ∅ /\
  objectUrls (browser (unmount (render fileChosen) fileChosen)) = ∅.
Proof.
  split.
  - apply (unmount_releases_everything polling).
    + intros t Ht.
      change (intervals (browser polling)) with ({[1%positive]} ∪ ∅ : gset positive) in Ht.
      assert (t = 1%positive) as -> by set_solver. reflexivity.
    + intros u Hu.
      change (objectUrls (browser polling)) with (∅ : gset nat) in Hu. set_solver.
  - apply (unmount_releases_everything fileChosen).
    + intros t Ht.
      change (intervals (browser fileChosen)) with (∅ : gset positive) in Ht. set_solver.
    + intros u Hu. left.
      change (objectUrls (browser fileChosen)) with ({[0%nat]} ∪ ∅ : gset nat) in Hu.
      assert (u = 0%nat) as -> by set_solver. reflexivity.
Defined.

(** * The history table *)

(** X14: choosing the 0-based page [n] in the table makes the table show
    page [n], keeps the rows per page, and makes the next history fetch ask
    for [offset = n * rowsPerPage] with [limit = rowsPerPage]. *)
Theorem table_page_round_trip newPage o s :
  let s' := dispatch (PageChanged newPage) s in
  RunHistoryTable.shownPage s' = newPage /\
  rowsPerPage (historyState s') = rowsPerPage (historyState s) /\
  requests (browser (dispatch (HistoryFetched o) s')) =
    (requests (browser s) ++
     [GET_jobs (rowsPerPage (historyState s)) (newPage * rowsPerPage (historyState s))])%list.
Proof.
  intros s'. subst s'. unfold dispatch, historyEffect.
  rewrite fetchRunHistory_request.
  unfold RunHistoryTable.shownPage, RunHistoryTable.handlePageChange, handlePageChange.
  cbn. repeat split; [lia|]. do 3 f_equal. lia.
Qed.

(** X15: a row can be played exactly when its status is [COMPLETE] and it
    has output; a click on Play changes the page only for such a row that
    is not the one being loaded, and a click on the row being loaded
    changes nothing. *)
Theorem playClick_only_loadable job oJob oOut s :
  let s' := dispatch (PlayClicked job oJob oOut) s in
  (RunHistoryTable.canPlay job = true <->
   PitstopJobListItem.status job = "COMPLETE" /\
   PitstopJobListItem.has_output job = true) /\
  (s' <> s ->
   PitstopJobListItem.status job = "COMPLETE" /\
   PitstopJobListItem.has_output job = true /\
   loadingJobId (historyState s) <> Some (PitstopJobListItem.job_id job)) /\
  (loadingJobId (historyState s) = Some (PitstopJobListItem.job_id job) -> s' = s).
Proof.
  intros s'. subst s'. unfold dispatch, RunHistoryTable.playClick.
  assert (Hcan : RunHistoryTable.canPlay job = true <->
                 PitstopJobListItem.status job = "COMPLETE" /\
                 PitstopJobListItem.has_output job = true).
  { unfold RunHistoryTable.canPlay. rewrite andb_true_iff, String.eqb_eq. tauto. }
  split; [exact Hcan|]. split.
  - intros Hchanged.
    destruct (RunHistoryTable.canPlay job) eqn:Ec; [|done].
    destruct (RunHistoryTable.isCurrentlyLoading s job) eqn:El; [done|].
    destruct (proj1 Hcan eq_refl) as [H1 H2]. repeat split; try done.
    intros Hl. unfold RunHistoryTable.isCurrentlyLoading in El.
    rewrite Hl in El. simpl in El. now rewrite String.eqb_refl in El.
  - intros Hl. unfold RunHistoryTable.isCurrentlyLoading. rewrite Hl. simpl.
    rewrite String.eqb_refl. now rewrite andb_false_r.
Qed.

Lemma playClick_only_loadable_witness :
  dispatch (PlayClicked completeSummary (Responded (okReply (Payload completeJob)))
                        (Responded (okReply outputVideo)))
           (setLoadingJobId (Some "job-1") polling)
  = setLoadingJobId (Some "job-1") polling.
Proof.
  exact (proj2 (proj2 (playClick_only_loadable completeSummary
                         (Responded (okReply (Payload completeJob)))
                         (Responded (okReply outputVideo))
                         (setLoadingJobId (Some "job-1") polling))) eq_refl).
Defined.

(** X16: whatever the outcome, a history fetch leaves the file, job and
    output state, the poller, the live object URLs, the page number and the
    rows per page as they were, and ends with the loading flag off. *)
Theorem fetchRunHistory_frame pageNum perPage o s :
  let s' := fetchRunHistory pageNum perPage o s in
  fileState s' = fileState s /\
  jobState s' = jobState s /\
  outputState s' = outputState s /\
  pollIntervalRef s' = pollIntervalRef s /\
  intervals (browser s') = intervals (browser s) /\
  objectUrls (browser s') = objectUrls (browser s) /\
  page (historyState s') = page (historyState s) /\
  rowsPerPage (historyState s') = rowsPerPage (historyState s) /\
  loadingJobId (historyState s') = loadingJobId (historyState s) /\
  isLoadingHistory (historyState s') = false.
Proof.
  intros s'. subst s'. unfold fetchRunHistory, andThen. cbv zeta.
  destruct (settle _ o); now cbn.
Qed.

(** * Download *)

(** X17: Download without a job id does nothing.  When the download
    fails (network failure or non-2xx reply), its message goes to the error
    field, one request was sent, and the job, its status, the output state
    and the live object URLs are unchanged. *)
Theorem handleDownload_failure id o s :
  id <> "" ->
  (forall response, o = Responded response -> ok response = false) ->
  handleDownload None o s = (None, s) /\
  handleDownload (Some "") o s = (None, s) /\
  let s' := snd (handleDownload (Some id) o s) in
  fst (handleDownload (Some id) o s) = None /\
  (exists message, error (jobState s') = Some message /\
                   fst (downloadOutput id (Some ("pitstop_output_" ++ id ++ ".mp4")) o s)
                   = Err message) /\
  status (jobState s') = status (jobState s) /\
  job (jobState s') = job (jobState s) /\
  jobId (jobState s') = jobId (jobState s) /\
  outputState s' = outputState s /\
  objectUrls (browser s') = objectUrls (browser s) /\
  nextObjectUrl (browser s') = nextObjectUrl (browser s) /\
  requests (browser s') = (requests (browser s) ++ [GET_output id])%list.
Proof.
  intros Hid Hfail. split; [reflexivity|]. split; [reflexivity|].
  unfold handleDownload, falsy. rewrite (proj2 (String.eqb_neq id "") Hid).
  unfold downloadOutput.
  destruct o as [message|response].
  - cbn. repeat split; eauto.
  - rewrite (Hfail response eq_refl). cbn. repeat split; eauto.
Qed.

Lemma handleDownload_failure_witness :
  error (jobState (snd (handleDownload (Some "job-1") (Responded outputNotFound) polling)))
  = Some "Output not found".
Proof.
  destruct (handleDownload_failure "job-1" (Responded outputNotFound) polling)
    as (_ & _ & _ & (message & Herr & Hmsg) & _).
  - discriminate.
  - intros response [= <-]. reflexivity.
  - rewrite Herr. injection Hmsg as <-. reflexivity.
Defined.

(** X18: a successful download clicks an anchor whose [href] is a newly
    minted object URL and whose [download] is "pitstop_output_<id>.mp4",
    leaves the job and output state alone, and once its timeout has fired
    the live object URLs are those from before the download. *)
Theorem handleDownload_success_releases id response s :
  id <> "" ->
  ok response = true ->
  nextObjectUrl (browser s) ∉ objectUrls (browser s) ->
  exists a s',
    handleDownload (Some id) (Responded response) s = (Some a, s') /\
    href a = nextObjectUrl (browser s) /\
    download a = "pitstop_output_" ++ id ++ ".mp4" /\
    href a ∈ objectUrls (browser s') /\
    jobState s' = jobState s /\
    outputState s' = outputState s /\
    requests (browser s') = (requests (browser s) ++ [GET_output id])%list /\
    objectUrls (browser (downloadOutput_timeout a s')) = objectUrls (browser s).
Proof.
  intros Hid Hok Hfresh.
  unfold handleDownload, falsy. rewrite (proj2 (String.eqb_neq id "") Hid).
  unfold downloadOutput. rewrite Hok. cbn [negb].
  eexists _, _. split; [reflexivity|].
  cbn. repeat split; try done; set_solver.
Qed.

Lemma handleDownload_success_releases_witness :
  exists a s',
    handleDownload (Some "job-1") (Responded outputReply) polling = (Some a, s') /\
    download a = "pitstop_output_job-1.mp4" /\
    objectUrls (browser (downloadOutput_timeout a s')) = objectUrls (browser polling).
Proof.
  destruct (handleDownload_success_releases "job-1" outputReply polling)
    as (a & s' & H & _ & Hname & _ & _ & _ & _ & Hurls).
  - discriminate.
  - reflexivity.
  - change (objectUrls (browser polling)) with (∅ : gset nat). set_solver.
  - exists a, s'. repeat split; [exact H | exact Hname | exact Hurls].
Defined.

(** * The effect on completion *)

Lemma refetch_first_page o r s :
  jobState ((setPage 1 >>> fetchRunHistory 1 r o) s) = jobState s /\
  page (historyState ((setPage 1 >>> fetchRunHistory 1 r o) s)) = 1 /\
  requests (browser ((setPage 1 >>> fetchRunHistory 1 r o) s)) =
    (requests (browser s) ++ [GET_jobs r 0])%list.
Proof.
  change ((setPage 1 >>> fetchRunHistory 1 r o) s)
    with (fetchRunHistory 1 r o (setPage 1 s)).
  rewrite fetchRunHistory_request.
  unfold fetchRunHistory, andThen. cbv zeta.
  destruct (settle _ o); now cbn.
Qed.

Lemma completionEffect_complete o n s :
  status (jobState s) = complete -> prevStatusRef n <> complete ->
  completionEffect o n s =
    ({| prevStatusRef := complete; snackbarOpen := true |},
     (setPage 1 >>> fetchRunHistory 1 (rowsPerPage (historyState s)) o) s).
Proof.
  intros Hs Hp. unfold completionEffect. rewrite Hs.
  repeat case_bool_decide; simplify_eq; done.
Qed.

Lemma completionEffect_failed o n s :
  status (jobState s) = failed -> prevStatusRef n <> failed ->
  completionEffect o n s =
    ({| prevStatusRef := failed; snackbarOpen := snackbarOpen n |},
     (setPage 1 >>> fetchRunHistory 1 (rowsPerPage (historyState s)) o) s).
Proof.
  intros Hs Hp. unfold completionEffect. rewrite Hs.
  repeat case_bool_decide; simplify_eq; done.
Qed.

Lemma completionEffect_quiet o n s :
  (status (jobState s) <> complete /\ status (jobState s) <> failed) \/
  prevStatusRef n = status (jobState s) ->
  completionEffect o n s =
    ({| prevStatusRef := status (jobState s); snackbarOpen := snackbarOpen n |}, s).
Proof.
  intros H. unfold completionEffect.
  repeat case_bool_decide; cbn [andb negb]; try reflexivity;
    destruct H as [[? ?]|?]; congruence.
Qed.

(** X19: the effect on [status] records the status it saw; when the
    status has just become [complete] or [failed] it sets the page to 1
    and sends one history request for the first page, and otherwise it
    leaves the page unchanged; the snackbar opens only on a new
    completion; and running the effect again right away does nothing. *)
Theorem completionEffect_once o o' n s :
  let n' := fst (completionEffect o n s) in
  let s' := snd (completionEffect o n s) in
  prevStatusRef n' = status (jobState s) /\
  status (jobState s') = status (jobState s) /\
  ((status (jobState s) = complete \/ status (jobState s) = failed) ->
   prevStatusRef n <> status (jobState s) ->
   page (historyState s') = 1 /\
   requests (browser s') =
     (requests (browser s) ++ [GET_jobs (rowsPerPage (historyState s)) 0])%list) /\
  (snackbarOpen n' = true <->
   snackbarOpen n = true \/
   (status (jobState s) = complete /\ prevStatusRef n <> complete)) /\
  ((status (jobState s) <> complete /\ status (jobState s) <> failed) \/
   prevStatusRef n = status (jobState s) -> s' = s) /\
  completionEffect o' n' s' = (n', s').
Proof.
  intros n' s'.
  destruct (refetch_first_page o (rowsPerPage (historyState s)) s) as (Hj & Hp & Hr).
  assert (Hquiet : forall m x, prevStatusRef m = status (jobState x) ->
                     completionEffect o' m x = (m, x)).
  { intros [p b] x Hm. rewrite completionEffect_quiet by (right; exact Hm).
    simpl in Hm. now rewrite <- Hm. }
  destruct (decide (status (jobState s) = complete)) as [Hc|Hc];
    [destruct (decide (prevStatusRef n = complete)) as [Hpc|Hpc]|
     destruct (decide (status (jobState s) = failed)) as [Hf|Hf];
     [destruct (decide (prevStatusRef n = failed)) as [Hpf|Hpf]|]];
    subst n' s';
    first [ rewrite (completionEffect_complete o n s Hc Hpc)
          | rewrite (completionEffect_failed o n s Hf Hpf)
          | rewrite (completionEffect_quiet o n s) by (right; congruence)
          | rewrite (completionEffect_quiet o n s) by (left; done) ];
    cbn [fst snd prevStatusRef snackbarOpen]; rewrite ?Hj;
    (split; [congruence|]); (split; [reflexivity|]);
    (split; [intros; first [done | congruence | intuition congruence]|]);
    (split; [intuition congruence|]);
    (split; [intros; first [reflexivity | intuition congruence]|]);
    apply Hquiet; cbn [prevStatusRef]; rewrite ?Hj; congruence.
Qed.

Lemma completionEffect_once_witness :
  page (historyState (snd (completionEffect (NetworkFailure "Failed to fetch")
                             {| prevStatusRef := rendering; snackbarOpen := false |}
                             (setStatus complete thirdPage)))) = 1.
Proof.
  destruct (completionEffect_once (NetworkFailure "Failed to fetch")
              (NetworkFailure "Failed to fetch")
              {| prevStatusRef := rendering; snackbarOpen := false |}
              (setStatus complete thirdPage))
    as (_ & _ & Hfire & _).
  apply Hfire; [now left | discriminate].
Defined.
